(** * OraProm: the row-to-metric mapping of [app.py] and [OracleConnection.execute]

    A shallow embedding of the parts of [src/app.py] and [src/oraProm/ora.py]
    that decide which observations a polling pass hands to the metric sink.

    Python values are modelled as follows.
    - [str] is [string]; a character is its code point, below 256.
    - [dict] with string keys is [gmap string _]; [a | b] and [a.update(b)]
      let the right operand win, which is stdpp's left-biased union flipped.
    - [set] of strings is [gset string].
    - a row (tuple or list of scalars) is [list value].
    - exceptions are an explicit outcome; calls to the sink are a log. *)

From Stdlib Require Import ZArith String Ascii List Bool Lia.
From stdpp Require Import base option list gmap sets strings fin_maps.

Open Scope string_scope.
Open Scope Z_scope.
Open Scope list_scope.

(** ** Python strings *)

Module PyStr.

Definition code (c : ascii) : N := N_of_ascii c.

(** [str.isspace] on the code points below 256. *)
Definition is_space (c : ascii) : bool :=
  let n := code c in
  (((9 <=? n) && (n <=? 13)) || ((28 <=? n) && (n <=? 32))
   || (n =? 133) || (n =? 160))%N.

(** [str.lower] on one code point below 256. *)
Definition lower_char (c : ascii) : ascii :=
  let n := code c in
  if (((65 <=? n) && (n <=? 90))
      || ((192 <=? n) && (n <=? 222) && negb (n =? 215)))%N
  then ascii_of_N (n + 32) else c.

Fixpoint lower (s : string) : string :=
  match s with
  | EmptyString => EmptyString
  | String c t => String (lower_char c) (lower t)
  end.

Fixpoint lstrip (s : string) : string :=
  match s with
  | EmptyString => EmptyString
  | String c t => if is_space c then lstrip t else s
  end.

Definition is_empty (s : string) : bool :=
  match s with EmptyString => true | _ => false end.

Fixpoint rstrip (s : string) : string :=
  match s with
  | EmptyString => EmptyString
  | String c t =>
      let t' := rstrip t in
      if is_space c && is_empty t' then EmptyString else String c t'
  end.

(** [s.strip()] *)
Definition strip (s : string) : string := rstrip (lstrip s).

(** [s.startswith(p)] *)
Definition startswith (s p : string) : bool := String.prefix p s.

Definition is_digit (c : ascii) : bool :=
  let n := code c in ((48 <=? n) && (n <=? 57))%N.

(** The longest run of decimal digits at the front of [s], and the rest. *)
Fixpoint span_digits (s : string) : string * string :=
  match s with
  | EmptyString => (EmptyString, EmptyString)
  | String c t =>
      if is_digit c
      then let '(ds, rest) := span_digits t in (String c ds, rest)
      else (EmptyString, s)
  end.

(** [int(ds)] for a string of decimal digits, most significant first. *)
Fixpoint int_digits (acc : Z) (ds : string) : Z :=
  match ds with
  | EmptyString => acc
  | String c t => int_digits (10 * acc + (Z.of_N (code c) - 48)) t
  end.

(** [sys.int_info.default_max_str_digits]: CPython refuses to convert a
    decimal string of more digits than this, leading zeros counted. *)
Definition int_max_str_digits : Z := 4300.

(** [int(ds)] for a string of decimal digits; [None] stands for the
    [ValueError] raised for a string beyond the digit limit. *)
Definition int (ds : string) : option Z :=
  if int_max_str_digits <? Z.of_nat (String.length ds)
  then None
  else Some (int_digits 0 ds).

Definition newline : string := String (ascii_of_N 10) EmptyString.

(** [re.match('^\$(\d+)$', v)]: the captured group when the pattern
    matches, [None] otherwise.  Without [re.MULTILINE] the final [$]
    matches at the end of the string and also just before one trailing
    newline. *)
Definition re_match_placeholder (v : string) : option string :=
  match v with
  | String c t =>
      if (code c =? 36)%N then
        let '(ds, rest) := span_digits t in
        if is_empty ds then None
        else if is_empty rest || String.eqb rest newline then Some ds
        else None
      else None
  | EmptyString => None
  end.

End PyStr.

(** ** Values, rows and Python indexing *)

(** Scalars that occur in a fetched row or in a label map. *)
Inductive value : Type :=
  | Str (s : string)
  | Int (z : Z)
  | Null.

Definition row : Type := list value.

Inductive exn : Type :=
  | IndexError
  | ValueError
  | DatabaseError (message : string)
  | OtherException
  | KeyboardInterrupt.

Inductive outcome (A : Type) : Type :=
  | Done (a : A)
  | Raised (e : exn).
Arguments Done {A} a.
Arguments Raised {A} e.

Definition len {A} (l : list A) : Z := Z.of_nat (length l).

(** [r[i]]: negative indices count from the end; out of range raises. *)
Definition py_index (r : row) (i : Z) : outcome value :=
  let j := if i <? 0 then len r + i else i in
  if (0 <=? j) && (j <? len r)
  then match nth_error r (Z.to_nat j) with
       | Some x => Done x
       | None => Raised IndexError
       end
  else Raised IndexError.

(** Truth value of a sequence: [bool(r)]. *)
Definition truthy {A} (l : list A) : bool :=
  match l with [] => false | _ => true end.

(** ** The sink and the effect of a pass *)

Record observation : Type := Observation {
  ob_name : string;
  ob_value : value;
  ob_labels : gmap string value
}.

(** A computation emits observations, in order, and then returns or raises. *)
Definition M (A : Type) : Type := list observation * outcome A.

Definition ret {A} (a : A) : M A := ([], Done a).
Definition raise {A} (e : exn) : M A := ([], Raised e).
Definition lift {A} (o : outcome A) : M A := ([], o).

Definition bind {A B} (m : M A) (k : A -> M B) : M B :=
  match m with
  | (log, Done a) => let '(log', r) := k a in (log ++ log', r)
  | (log, Raised e) => (log, Raised e)
  end.

Global Instance M_ret : MRet M := @ret.
Global Instance M_bind : MBind M := fun A B k m => bind m k.

Definition emitted {A} (m : M A) : list observation := fst m.
Definition result {A} (m : M A) : outcome A := snd m.

(** [for x in xs: body(x)] *)
Fixpoint for_each {A} (xs : list A) (body : A -> M unit) : M unit :=
  match xs with
  | [] => ret tt
  | x :: rest => body x;; for_each rest body
  end.

(** ** Dictionaries *)

(** [a | b] on dicts (and [a.update(b)] read as a value): every key of
    either operand, the value of [b] where both have the key. *)
Definition dict_or {V} (a b : gmap string V) : gmap string V := b ∪ a.

(** ** Configuration, as loaded from the YAML file *)

Record connection_config : Type := ConnectionConfig {
  db_host : value;
  db_port : value;
  db_name : value;
  conn_extra_labels : option (gmap string value)
}.

(** A gauge entry: ["name"], the optional ["col"] (already an integer) and
    the optional ["extra_labels"], whose values are label templates. *)
Record gauge : Type := Gauge {
  g_name : string;
  g_col : option Z;
  g_extra_labels : option (gmap string string)
}.

Record query_config : Type := QueryConfig {
  q_name : string;
  q_query : string;
  q_gauges : list gauge
}.

(** ** [oraProm/ora.py]: the connection object and its driver *)

(** What the database driver answers during one cycle: to [oracledb.connect],
    to [Connection.close], and to running a statement on a cursor and
    fetching all of its rows. *)
Record driver : Type := Driver {
  drv_connect : outcome unit;
  drv_close : outcome unit;
  drv_run : string -> outcome (list row)
}.

(** [self.conn] is either [None] or a live handle. *)
Record OracleConnection : Type := { conn : bool }.

Module Ora.

(** [OracleConnection.connect] *)
Definition connect (drv : driver) (self : OracleConnection)
  : OracleConnection * outcome unit :=
  if negb (conn self) then
    match drv_connect drv with
    | Done _ => ({| conn := true |}, Done tt)
    | Raised KeyboardInterrupt => (self, Raised KeyboardInterrupt)
    | Raised _ => ({| conn := false |}, Done tt)
    end
  else (self, Done tt).

(** [OracleConnection.close] *)
Definition close (drv : driver) (self : OracleConnection)
  : OracleConnection * outcome unit :=
  if conn self then
    match drv_close drv with
    | Done _ => ({| conn := false |}, Done tt)
    | Raised KeyboardInterrupt => (self, Raised KeyboardInterrupt)
    | Raised _ => (self, Done tt)
    end
  else (self, Done tt).

(** The test of line 60: [query.strip().lower().startswith("select")]. *)
Definition is_select (query : string) : bool :=
  PyStr.startswith (PyStr.lower (PyStr.strip query)) "select".

(** [OracleConnection.execute]: the statements sent to the database, in
    order, and what the caller gets. *)
Definition execute (drv : driver) (self : OracleConnection)
    (query name : string) : list string * outcome (list row) :=
  if negb (conn self) then ([], Done [])
  else if negb (is_select query) then ([], Done [])
  else
    match drv_run drv query with
    | Done rows => ([query], Done rows)
    | Raised KeyboardInterrupt => ([query], Raised KeyboardInterrupt)
    | Raised (DatabaseError _) => ([query], Done [[]])
    | Raised _ => ([query], Done [[]])
    end.

End Ora.

(** ** [app.py] *)

Section App.

(** The constant [INVALID_LABEL_STR] is imported from [oraProm/prometheus.py],
    which is not part of the source tree; it is a parameter here. *)
Variable INVALID_LABEL_STR : string.

(** Modelled from the spec: [CustomExporter.set_gauge] is declared in
    [oraProm/prometheus.py], which is not part of the source tree.  The sink
    contract is [set_gauge(name, value, label_map)]; a call is recorded as
    one observation. *)
Definition set_gauge (name : string) (v : value)
    (labels : gmap string value) : M unit :=
  ([Observation name v labels], Done tt).

(** Line 73 of [query_set]. *)
Definition max_conn_labels : gset string :=
  {[ "dbhost"; "dbenv"; "dbname"; "dbinstance"; "dbport" ]}.

(** Lines 65-74: the connection labels, padded with the sentinel. *)
Definition c_labels (config_connection : connection_config)
  : gmap string value :=
  let c0 : gmap string value :=
    {[ "dbhost" := db_host config_connection;
       "dbport" := db_port config_connection;
       "dbname" := db_name config_connection ]} in
  let c1 :=
    match conn_extra_labels config_connection with
    | Some extra => dict_or c0 extra
    | None => c0
    end in
  dict_or (gset_to_gmap (Str INVALID_LABEL_STR) max_conn_labels) c1.

(** Lines 79-82. *)
Definition g_labels (g : gauge) : gmap string string :=
  match g_extra_labels g with
  | Some l => l
  | None => ∅
  end.

(** Lines 84-87. *)
Definition col (g : gauge) (g_counter : Z) : Z :=
  match g_col g with
  | Some c => c - 1
  | None => g_counter
  end.

(** Line 89. *)
Definition is_placeholder (v : string) : bool :=
  match PyStr.re_match_placeholder v with
  | Some _ => true
  | None => false
  end.

Definition has_special_labels (labels : gmap string string) : bool :=
  existsb (fun kv => is_placeholder (snd kv)) (map_to_list labels).

(** Line 101; [int] is called before the row is looked at. *)
Definition g_label_index (v : string) : outcome Z :=
  match PyStr.re_match_placeholder v with
  | Some ds =>
      match PyStr.int ds with
      | Some n => Done (n - 1)
      | None => Raised ValueError
      end
  | None => Done 0
  end.

(** Lines 101-102: the index, then the right-hand side of line 102. *)
Definition g_label_value (r : row) (v : string) : outcome value :=
  match g_label_index v with
  | Done i =>
      if truthy r && (len r >=? i)
      then py_index r i
      else Done (Str INVALID_LABEL_STR)
  | Raised e => Raised e
  end.

(** Lines 100-102: the loop over the items of [g_labels_aux]. *)
Fixpoint g_labels_loop (r : row) (items : list (string * string))
    (aux : gmap string value) : outcome (gmap string value) :=
  match items with
  | [] => Done aux
  | (k, v) :: rest =>
      match g_label_value r v with
      | Done x => g_labels_loop r rest (<[k := x]> aux)
      | Raised e => Raised e
      end
  end.

(** Lines 99-102.  The items are visited in the order of [map_to_list]
    rather than in insertion order; every key is rewritten from its own
    template, so the outcome is the same (see [g_labels_aux_lookup]). *)
Definition g_labels_aux (r : row) (labels : gmap string string)
  : outcome (gmap string value) :=
  g_labels_loop r (map_to_list labels) (Str <$> labels).

(** Lines 95-96 and 104-105. *)
Definition set_from_row (g : gauge) (r : row) (c : Z)
    (labels : gmap string value) : M unit :=
  if truthy r && (len r >=? c)
  then x ← lift (py_index r c); set_gauge (g_name g) x labels
  else ret tt.

(** Lines 92-96. *)
Definition static_branch (cl : gmap string value) (res : list row)
    (g : gauge) (c : Z) : M unit :=
  match res with
  | [] => ret tt
  | r :: _ =>
      let labels := dict_or (Str <$> g_labels g) cl in
      set_from_row g r c labels
  end.

(** Lines 99-105: the body of the loop over the rows. *)
Definition dynamic_row (cl : gmap string value) (g : gauge) (c : Z)
    (r : row) : M unit :=
  aux ← lift (g_labels_aux r (g_labels g));
  let labels := dict_or aux cl in
  set_from_row g r c labels.

Definition dynamic_branch (cl : gmap string value) (res : list row)
    (g : gauge) (c : Z) : M unit :=
  for_each res (dynamic_row cl g c).

(** Lines 89-105: the two branches, for the value column [c]. *)
Definition gauge_branches (cl : gmap string value) (res : list row)
    (g : gauge) (c : Z) : M unit :=
  if negb (has_special_labels (g_labels g))
  then static_branch cl res g c
  else dynamic_branch cl res g c.

(** Lines 79-105: the body of the loop over the gauges, before the
    counter is advanced. *)
Definition gauge_body (cl : gmap string value) (res : list row)
    (g_counter : Z) (g : gauge) : M unit :=
  gauge_branches cl res g (col g g_counter).

(** Lines 78-106; the result is the final value of [g_counter]. *)
Fixpoint gauges_loop (cl : gmap string value) (res : list row)
    (g_counter : Z) (gauges : list gauge) : M Z :=
  match gauges with
  | [] => ret g_counter
  | g :: rest =>
      gauge_body cl res g_counter g;;
      gauges_loop cl res (g_counter + 1) rest
  end.

(** Lines 77-106: the mapping of one result set, counter starting at 0. *)
Definition map_result (config_connection : connection_config)
    (res : list row) (gauges : list gauge) : M Z :=
  gauges_loop (c_labels config_connection) res 0 gauges.

(** What one cycle of [query_set] leaves behind. *)
Record cycle : Type := Cycle {
  cy_conn : OracleConnection;
  cy_sent : list string;
  cy_observations : list observation;
  cy_logged : option exn;
  cy_interrupt : bool
}.

Definition finish {A} (oc : OracleConnection) (sent : list string)
    (m : M A) : cycle :=
  match m with
  | (obs, Done _) => Cycle oc sent obs None false
  | (obs, Raised KeyboardInterrupt) => Cycle oc sent obs None true
  | (obs, Raised e) => Cycle oc sent obs (Some e) false
  end.

(** Lines 61-108: one pass through the [try] block with its handler.
    [except Exception] logs anything but [KeyboardInterrupt]. *)
Definition query_set (drv : driver) (config_connection : connection_config)
    (oracle_conn : OracleConnection) (config_query : query_config) : cycle :=
  match Ora.close drv oracle_conn with
  | (oc, Raised e) => finish oc [] (raise e : M Z)
  | (oc, Done _) =>
      match Ora.connect drv oc with
      | (oc, Raised e) => finish oc [] (raise e : M Z)
      | (oc, Done _) =>
          match Ora.execute drv oc (q_query config_query)
                  (q_name config_query) with
          | (sent, Raised e) => finish oc sent (raise e : M Z)
          | (sent, Done res) =>
              finish oc sent
                (map_result config_connection res (q_gauges config_query))
          end
      end
  end.

(** [get_labels_list] *)
Definition get_labels_list (config_connections : list connection_config)
  : gset string :=
  let all_extra :=
    fold_left
      (fun (acc : gset string) c =>
         acc ∪ match conn_extra_labels c with
               | Some extra => dom extra
               | None => ∅
               end)
      config_connections ∅ in
  {[ "dbname" ]} ∪ ({[ "dbport" ]} ∪ ({[ "dbhost" ]} ∪ all_extra)).

(** Lines 152-153 of [start_prometheus_exporter]: the label keys a gauge
    is registered with. *)
Definition registered_labels (max_labels : gset string) (g : gauge)
  : gset string :=
  max_labels ∪ dom (g_labels g).

(** [start_prometheus_exporter]: the [create_gauge] calls, metric name and
    label keys, or the exception for a gauge without a name. *)
Fixpoint create_gauges (max_labels : gset string) (gauges : list gauge)
  : outcome (list (string * gset string)) :=
  match gauges with
  | [] => Done []
  | g :: rest =>
      if PyStr.is_empty (g_name g) then Raised OtherException
      else match create_gauges max_labels rest with
           | Done l => Done ((g_name g, registered_labels max_labels g) :: l)
           | Raised e => Raised e
           end
  end.

Definition start_prometheus_exporter (config_queries : list query_config)
    (max_labels : gset string) : outcome (list (string * gset string)) :=
  create_gauges max_labels (concat (map q_gauges config_queries)).

End App.


(** ** The specification's wording, for comparison with the code *)

Module Spec.

(** A statement is accepted when, after stripping leading whitespace and
    ignoring case, it starts with [select]. *)
Definition starts_with_select (query : string) : bool :=
  PyStr.startswith (PyStr.lower (PyStr.lstrip query)) "select".

(** The value column of the gauge at zero-based [position] of the gauge
    list: [col - 1] when [col] is given, the position otherwise. *)
Definition column (position : Z) (g : gauge) : Z :=
  match g_col g with
  | Some c => c - 1
  | None => position
  end.

(** The gauges in declared order, each with its column; [start] is the
    position of the first one. *)
Definition bindings_from (start : Z) (gauges : list gauge)
  : list (Z * gauge) :=
  imap (fun i g => (column (start + Z.of_nat i) g, g)) gauges.

Definition bindings (gauges : list gauge) : list (Z * gauge) :=
  bindings_from 0 gauges.

(** Label precedence as the specification words it: a literal gauge label
    whose key is also a connection label is emitted with the gauge's
    value. *)
Definition gauge_labels_win (inv : string) (cfg : connection_config)
    (res : list row) (g_counter : Z) (g : gauge) : Prop :=
  forall o k t,
    In o (emitted (gauge_body inv (c_labels inv cfg) res g_counter g)) ->
    g_labels g !! k = Some t ->
    is_placeholder t = false ->
    is_Some (c_labels inv cfg !! k) ->
    ob_labels o !! k = Some (Str t).

(** The connection labels as worded: the sentinel on the five hard-coded
    keys, overlaid with host, port and name, overlaid with the connection's
    [extra_labels]. *)
Definition connection_label (inv : string) (cfg : connection_config)
    (k : string) : option value :=
  match conn_extra_labels cfg ≫= (fun extra => extra !! k) with
  | Some v => Some v
  | None =>
      if decide (k = "dbhost") then Some (db_host cfg)
      else if decide (k = "dbport") then Some (db_port cfg)
      else if decide (k = "dbname") then Some (db_name cfg)
      else if decide (k = "dbenv" \/ k = "dbinstance") then Some (Str inv)
      else None
  end.


(** The static branch as the specification words it: a non-empty result
    set always gives exactly one observation, valued from the first row. *)
Definition static_emits_one (inv : string) (cl : gmap string value)
    (res : list row) (g_counter : Z) (g : gauge) : Prop :=
  has_special_labels (g_labels g) = false ->
  res <> [] ->
  exists o,
    emitted (gauge_body inv cl res g_counter g) = [o]
    /\ py_index (hd [] res) (col g g_counter) = Done (ob_value o).

End Spec.

(** ** Sample configurations and result sets *)

Module Sample.

Definition cfg_h1 : connection_config :=
  ConnectionConfig (Str "h1") (Int 1521) (Str "orcl") None.

Definition cfg_prod : connection_config :=
  ConnectionConfig (Str "h1") (Int 1521) (Str "orcl")
    (Some {[ "dbenv" := Str "prod" ]}).

Definition rows_ab : list row := [[Str "A"; Int 10]; [Str "B"; Int 20]].

Definition g_plain : gauge := Gauge "sessions" None None.

Definition g_second : gauge := Gauge "sessions" (Some 2) None.

Definition g_env : gauge :=
  Gauge "ts_used" (Some 2) (Some {[ "env" := "$1" ]}).

Definition g_clash : gauge :=
  Gauge "sessions" None (Some {[ "dbname" := "reporting" ]}).

Definition g_env_clash : gauge :=
  Gauge "ts_used" (Some 2)
    (Some {[ "env" := "$1"; "dbname" := "reporting" ]}).

Definition g_env_kind : gauge :=
  Gauge "ts_used" (Some 2) (Some {[ "env" := "$1"; "kind" := "fixed" ]}).

Definition g_second_col_label : gauge :=
  Gauge "ts_used" (Some 1) (Some {[ "env" := "$2" ]}).

Definition g_first : gauge := Gauge "first" (Some 1) None.

Definition rows_short_first : list row := [[Str "A"]; [Str "B"; Int 20]].

Definition q_sessions : query_config :=
  QueryConfig "sessions" "select count(*) from v$session" [g_plain].

Definition q_tablespaces : query_config :=
  QueryConfig "tablespaces" "select name, used from ts" [g_env; g_first].

(** The labels of the observations the samples lead to, with ["-"] for
    [INVALID_LABEL_STR]. *)
Definition labels_h1 : gmap string value :=
  {[ "dbhost" := Str "h1"; "dbport" := Int 1521; "dbname" := Str "orcl";
     "dbenv" := Str "-"; "dbinstance" := Str "-" ]}.

Definition obs_sessions : observation :=
  Observation "sessions" (Int 7) labels_h1.

Definition obs_sessions_prod : observation :=
  Observation "sessions" (Int 7) (<[ "dbenv" := Str "prod" ]> labels_h1).

Definition failing_driver : driver :=
  Driver (Done tt) (Done tt) (fun _ => Raised (DatabaseError "ORA-00942")).

Definition serving_driver (rows : list row) : driver :=
  Driver (Done tt) (Done tt) (fun _ => Done rows).

End Sample.

(** ** The rest of [app.py]: start-up and the connection keeper *)

(** Truth value of a configuration scalar: [bool(v)]. *)
Definition truthy_value (v : value) : bool :=
  match v with
  | Str s => negb (PyStr.is_empty s)
  | Int z => negb (z =? 0)
  | Null => false
  end.

(** A start-up step either hands on a value or leaves through
    [sys.exit(status)]. *)
Inductive startup (A : Type) : Type :=
  | Started (a : A)
  | Exit (status : Z).
Arguments Started {A} a.
Arguments Exit {A} status.

(** Lines 40-43: the first field without a truthy value, if any. *)
Fixpoint missing_field (fields : list (string * value)) : option string :=
  match fields with
  | [] => None
  | (key, v) :: rest =>
      if negb (truthy_value v) then Some key else missing_field rest
  end.

(** Lines 32-38: the dict [conn], in insertion order; [db_user] and
    [db_passwd] are the two keys of the connection entry that the label
    code never reads. *)
Definition connection_fields (config_connection : connection_config)
    (db_user db_passwd : value) : list (string * value) :=
  [ ("db_name", db_name config_connection);
    ("db_hostname", db_host config_connection);
    ("db_port", db_port config_connection);
    ("db_user", db_user);
    ("db_passwd", db_passwd) ].

(** [oracle_instance_connection]; [OracleConnection.__init__] leaves
    [self.conn] at [None]. *)
Definition oracle_instance_connection (config_connection : connection_config)
    (db_user db_passwd : value) : startup OracleConnection :=
  match missing_field
          (connection_fields config_connection db_user db_passwd) with
  | Some _ => Exit 1
  | None => Started {| conn := false |}
  end.

(** [oracle_keep_connection]: the first iterations of the loop, one driver
    answer for each; [except Exception] swallows everything but
    [KeyboardInterrupt]. *)
Fixpoint oracle_keep_connection (answers : list driver)
    (oracle_conn : OracleConnection) : OracleConnection * outcome unit :=
  match answers with
  | [] => (oracle_conn, Done tt)
  | drv :: later =>
      match Ora.connect drv oracle_conn with
      | (oc, Raised KeyboardInterrupt) => (oc, Raised KeyboardInterrupt)
      | (oc, _) => oracle_keep_connection later oc
      end
  end.

(** ** Shapes used to state what the code computes *)

Module Shape.

Fixpoint all_space (s : string) : bool :=
  match s with
  | EmptyString => true
  | String c t => PyStr.is_space c && all_space t
  end.

Fixpoint all_digits (s : string) : bool :=
  match s with
  | EmptyString => true
  | String c t => PyStr.is_digit c && all_digits t
  end.

(** The column at a zero-based index that the row has. *)
Definition column (r : row) (i : Z) : value := nth (Z.to_nat i) r Null.

(** The column a label template points at. *)
Definition label_column (r : row) (v : string) : value :=
  match g_label_index v with
  | Done i => column r i
  | Raised _ => Null
  end.

(** One observation per row: the value column and, for each label, the
    column its template points at. *)
Definition fan_out_labels (r : row) (labels : gmap string string)
  : gmap string value :=
  label_column r <$> labels.

Definition fan_out (cl : gmap string value) (g : gauge) (c : Z)
    (res : list row) : list observation :=
  map (fun r => Observation (g_name g) (column r c)
                  (dict_or (fan_out_labels r (g_labels g)) cl)) res.

Definition in_row (r : row) (i : Z) : bool := (0 <=? i) && (i <? len r).

(** The index of a label template can be computed ([int] accepts its
    digits) and the row has that column. *)
Definition label_in_row (r : row) (v : string) : bool :=
  match g_label_index v with
  | Done i => in_row r i
  | Raised _ => false
  end.

(** The index of a label template can be computed: the template is a
    literal, or a placeholder within the digit limit of [int]. *)
Definition label_resolves (v : string) : bool :=
  match g_label_index v with
  | Done _ => true
  | Raised _ => false
  end.

Definition labels_resolve (g : gauge) : bool :=
  forallb (fun kv => label_resolves kv.2) (map_to_list (g_labels g)).

(** The rows a dynamic gauge can map: the value column and every label
    column are there. *)
Definition row_covers (g : gauge) (c : Z) (r : row) : bool :=
  in_row r c
  && forallb (fun kv => label_in_row r kv.2) (map_to_list (g_labels g)).

(** The most observations a gauge can give on a result set. *)
Definition gauge_quota (res : list row) (g : gauge) : nat :=
  if has_special_labels (g_labels g) then length res else 1%nat.

(** The driver answers a connection attempt with a handle. *)
Definition connects (drv : driver) : bool :=
  match drv_connect drv with
  | Done _ => true
  | Raised _ => false
  end.

(** The label keys of a connection's [extra_labels]. *)
Definition extra_keys (c : connection_config) : gset string :=
  match conn_extra_labels c with
  | Some extra => dom extra
  | None => ∅
  end.

End Shape.

(** ** More sample inputs *)

Module Fixture.

Definition cfg_full : connection_config :=
  ConnectionConfig (Str "h1") (Int 1521) (Str "orcl")
    (Some {[ "dbenv" := Str "prod"; "dbinstance" := Str "i1" ]}).

Definition obs_full : observation :=
  Observation "sessions" (Int 7)
    {[ "dbhost" := Str "h1"; "dbport" := Int 1521; "dbname" := Str "orcl";
       "dbenv" := Str "prod"; "dbinstance" := Str "i1" ]}.

Definition g_last : gauge := Gauge "last" (Some 0) None.

Definition g_far : gauge := Gauge "far" (Some (-3)) None.

Definition row_a10 : row := [Str "A"; Int 10].




Definition unreachable_driver : driver :=
  Driver (Raised (DatabaseError "ORA-12541")) (Done tt) (fun _ => Done []).

Definition stuck_driver : driver :=
  Driver (Raised OtherException) (Raised (DatabaseError "ORA-03113"))
    (fun _ => Done Sample.rows_ab).

End Fixture.

(** * Properties *)

(** ** The effect monad *)

Lemma bind_unfold {A B} (m : M A) (k : A -> M B) :
  (m ≫= k) = bind m k.
Proof. reflexivity. Qed.

Lemma bind_ret_l {A B} (a : A) (k : A -> M B) : (ret a ≫= k) = k a.
Proof. rewrite bind_unfold. unfold bind, ret. destruct (k a). reflexivity. Qed.

Lemma bind_skip {B} (m : M unit) (n : M B) :
  m = ([], Done tt) -> (m;; n) = n.
Proof. intros ->. apply (bind_ret_l tt (fun _ => n)). Qed.

Lemma bind_raised {A B} log e (k : A -> M B) :
  ((log, Raised e) ≫= k) = (log, Raised e).
Proof. reflexivity. Qed.

Lemma bind_assoc {A B C} (m : M A) (k : A -> M B) (h : B -> M C) :
  ((m ≫= k) ≫= h) = (m ≫= fun a => k a ≫= h).
Proof.
  rewrite !bind_unfold. destruct m as [log [a|e]]; simpl; [|reflexivity].
  rewrite bind_unfold. destruct (k a) as [log1 [b|e]]; simpl.
  - destruct (h b) as [log2 r]. by rewrite app_assoc.
  - reflexivity.
Qed.

Lemma emitted_bind {A B} (m : M A) (k : A -> M B) o :
  In o (emitted (m ≫= k)) ->
  In o (emitted m) \/ exists a, result m = Done a /\ In o (emitted (k a)).
Proof.
  rewrite bind_unfold. destruct m as [log [a|e]]; simpl.
  - destruct (k a) as [log' r] eqn:Hk. simpl. rewrite in_app_iff.
    intros [H|H]; [by left|]. right. exists a. rewrite Hk. by split.
  - by left.
Qed.

Lemma for_each_app {A} (xs ys : list A) (body : A -> M unit) :
  for_each (xs ++ ys) body = (for_each xs body;; for_each ys body).
Proof.
  induction xs as [|x xs IH]; simpl.
  - symmetry. apply (bind_ret_l tt (fun _ => for_each ys body)).
  - rewrite IH. symmetry. apply bind_assoc.
Qed.

Lemma emitted_for_each {A} (xs : list A) (body : A -> M unit) o :
  In o (emitted (for_each xs body)) ->
  exists x, In x xs /\ In o (emitted (body x)).
Proof.
  induction xs as [|x xs IH]; simpl; [done|].
  intros H. apply emitted_bind in H as [H|(_ & _ & H)].
  - exists x. by split; [left|].
  - destruct (IH H) as (y & Hy & Ho). exists y. by split; [right|].
Qed.

(** ** Python strings *)

Module PyStrFacts.
Import PyStr.

Lemma lower_char_select_not_space (d : ascii) :
  In (lower_char d) (list_ascii_of_string "select") -> is_space d = false.
Proof.
  destruct d as [[] [] [] [] [] [] [] []]; vm_compute; try reflexivity;
    intros H; repeat (destruct H as [H|H]; [discriminate H|]); destruct H.
Qed.

Lemma prefix_lower_rstrip (p s : string) :
  (forall d, In (lower_char d) (list_ascii_of_string p) -> is_space d = false) ->
  String.prefix p (lower (rstrip s)) = String.prefix p (lower s).
Proof.
  revert s. induction p as [|a p IH]; intros s Hp.
  { by destruct (lower (rstrip s)), (lower s). }
  destruct s as [|d t]; [reflexivity|]. simpl rstrip.
  assert (IH' : String.prefix p (lower (rstrip t)) = String.prefix p (lower t)).
  { apply IH. intros d' Hd'. apply Hp. simpl. by right. }
  destruct (is_space d && is_empty (rstrip t)) eqn:Hsp; simpl.
  - destruct (ascii_dec a (lower_char d)) as [->|]; [|reflexivity].
    apply andb_true_iff in Hsp as [Hsp _].
    rewrite Hp in Hsp; [discriminate|]. simpl. by left.
  - by rewrite IH'.
Qed.

(** Stripping on both sides or only on the left: the same prefix test. *)
Lemma strip_select (q : string) :
  startswith (lower (strip q)) "select"
  = startswith (lower (lstrip q)) "select".
Proof.
  unfold startswith, strip. apply prefix_lower_rstrip.
  apply lower_char_select_not_space.
Qed.

End PyStrFacts.

(** ** [OracleConnection.execute] *)

Lemma is_select_spec (query : string) :
  Ora.is_select query = Spec.starts_with_select query.
Proof. apply PyStrFacts.strip_select. Qed.

Lemma execute_not_select drv self query name :
  Ora.is_select query = false ->
  Ora.execute drv self query name = ([], Done []).
Proof. intros H. unfold Ora.execute. rewrite H. by destruct (conn self). Qed.

Lemma execute_returns drv self query name :
  snd (Ora.execute drv self query name) = Raised KeyboardInterrupt
  \/ exists rows, snd (Ora.execute drv self query name) = Done rows.
Proof.
  unfold Ora.execute.
  destruct (conn self); simpl; [|right; by eexists].
  destruct (Ora.is_select query); simpl; [|right; by eexists].
  destruct (drv_run drv query) as [rows|[]]; simpl;
    first [by left | right; by eexists].
Qed.

(** C9: a statement that does not start with [select], once leading
    whitespace is stripped and case ignored, is answered with the empty
    sequence and nothing is sent to the database; a database error while a
    [select] runs on a live connection is answered with one empty row; no
    database error ever reaches the caller. *)
Theorem C9_execute_select_only drv self query name :
  (Spec.starts_with_select query = false ->
   Ora.execute drv self query name = ([], Done []))
  /\ (forall msg, conn self = true ->
        Spec.starts_with_select query = true ->
        drv_run drv query = Raised (DatabaseError msg) ->
        Ora.execute drv self query name = ([query], Done [[]]))
  /\ (forall msg,
        snd (Ora.execute drv self query name) <> Raised (DatabaseError msg)).
Proof.
  split; [|split].
  - rewrite <- is_select_spec. apply execute_not_select.
  - intros msg Hc Hs Hd. rewrite <- is_select_spec in Hs.
    unfold Ora.execute. by rewrite Hc, Hs, Hd.
  - intros msg H.
    destruct (execute_returns drv self query name) as [H'|[rows H']];
      rewrite H' in H; discriminate H.
Qed.

Lemma C9_execute_select_only_witness :
  Ora.execute Sample.failing_driver {| conn := true |} "  drop table t" "q"
    = ([], Done [])
  /\ Ora.execute Sample.failing_driver {| conn := true |} " SeLeCT x from t" "q"
    = ([" SeLeCT x from t"], Done [[]]).
Proof.
  split.
  - apply (proj1 (C9_execute_select_only Sample.failing_driver {| conn := true |}
                    "  drop table t" "q")).
    reflexivity.
  - apply (proj1 (proj2 (C9_execute_select_only Sample.failing_driver
                           {| conn := true |} " SeLeCT x from t" "q"))
             "ORA-00942"); reflexivity.
Defined.

(** ** Label maps *)

Lemma dict_or_lookup_r {V} (a b : gmap string V) k v :
  b !! k = Some v -> dict_or a b !! k = Some v.
Proof. intros H. unfold dict_or. by apply lookup_union_Some_l. Qed.

Lemma dict_or_lookup_l {V} (a b : gmap string V) k :
  b !! k = None -> dict_or a b !! k = a !! k.
Proof. intros H. unfold dict_or. by apply lookup_union_r. Qed.

Lemma dict_or_dom {V} (a b : gmap string V) :
  dom (dict_or a b) = dom a ∪ dom b.
Proof. unfold dict_or. rewrite dom_union_L. set_solver. Qed.

Section AppFacts.

Variable INVALID_LABEL_STR : string.

Local Abbreviation c_labels := (c_labels INVALID_LABEL_STR).
Local Abbreviation g_label_value := (g_label_value INVALID_LABEL_STR).
Local Abbreviation g_labels_loop := (g_labels_loop INVALID_LABEL_STR).
Local Abbreviation g_labels_aux := (g_labels_aux INVALID_LABEL_STR).
Local Abbreviation dynamic_row := (dynamic_row INVALID_LABEL_STR).
Local Abbreviation dynamic_branch := (dynamic_branch INVALID_LABEL_STR).
Local Abbreviation gauge_branches := (gauge_branches INVALID_LABEL_STR).
Local Abbreviation gauge_body := (gauge_body INVALID_LABEL_STR).
Local Abbreviation gauges_loop := (gauges_loop INVALID_LABEL_STR).
Local Abbreviation map_result := (map_result INVALID_LABEL_STR).

(** The connection labels always cover the five hard-coded keys. *)
Lemma c_labels_dom cfg :
  dom (c_labels cfg)
  = max_conn_labels ∪ match conn_extra_labels cfg with
                      | Some extra => dom extra
                      | None => ∅
                      end.
Proof.
  unfold c_labels. rewrite dict_or_dom, dom_gset_to_gmap.
  destruct (conn_extra_labels cfg) as [extra|].
  - rewrite dict_or_dom, !dom_insert_L, dom_singleton_L.
    unfold max_conn_labels. set_solver.
  - rewrite !dom_insert_L, dom_singleton_L. unfold max_conn_labels. set_solver.
Qed.

Lemma c_labels_padding cfg k :
  k ∈ max_conn_labels ->
  k <> "dbhost" -> k <> "dbport" -> k <> "dbname" ->
  (forall extra, conn_extra_labels cfg = Some extra -> extra !! k = None) ->
  c_labels cfg !! k = Some (Str INVALID_LABEL_STR).
Proof.
  intros Hk H1 H2 H3 Hextra. unfold c_labels.
  rewrite dict_or_lookup_l.
  - rewrite lookup_gset_to_gmap_Some. by split.
  - destruct (conn_extra_labels cfg) as [extra|] eqn:He.
    + rewrite dict_or_lookup_l by (by apply Hextra).
      by rewrite !lookup_insert_ne, lookup_singleton_ne.
    + by rewrite !lookup_insert_ne, lookup_singleton_ne.
Qed.

Lemma c_labels_extra cfg extra k v :
  conn_extra_labels cfg = Some extra -> extra !! k = Some v ->
  c_labels cfg !! k = Some v.
Proof.
  intros He Hk. unfold c_labels. rewrite He.
  by do 2 apply dict_or_lookup_r.
Qed.

(** [set_from_row] emits nothing or exactly the value at the column. *)
Lemma set_from_row_cases g r c labels :
  set_from_row g r c labels = ([], Done tt)
  \/ set_from_row g r c labels = ([], Raised IndexError)
  \/ exists x, py_index r c = Done x
       /\ set_from_row g r c labels
          = ([Observation (g_name g) x labels], Done tt).
Proof.
  unfold set_from_row.
  destruct (truthy r && (len r >=? c)); [|by left].
  right. unfold py_index.
  destruct ((0 <=? _) && _); [|by left].
  destruct (nth_error r _) as [x|]; [|by left].
  right. by exists x.
Qed.

Lemma set_from_row_emitted g r c labels o :
  In o (emitted (set_from_row g r c labels)) ->
  o = Observation (g_name g) (ob_value o) labels
  /\ py_index r c = Done (ob_value o).
Proof.
  destruct (set_from_row_cases g r c labels) as [H|[H|(x & Hx & H)]];
    rewrite H; simpl; try tauto.
  intros [<-|[]]. by split.
Qed.

Lemma py_index_in_range (r : row) (c : Z) x :
  0 <= c -> nth_error r (Z.to_nat c) = Some x -> py_index r c = Done x.
Proof.
  intros Hc Hx. unfold py_index, len.
  assert (Z.to_nat c < length r)%nat by (apply nth_error_Some; congruence).
  replace (c <? 0) with false by (symmetry; apply Z.ltb_ge; lia).
  replace (0 <=? c) with true by (symmetry; apply Z.leb_le; lia).
  replace (c <? Z.of_nat (length r)) with true
    by (symmetry; apply Z.ltb_lt; lia).
  simpl. by rewrite Hx.
Qed.

Lemma set_from_row_in_range g r c labels x :
  0 <= c -> nth_error r (Z.to_nat c) = Some x ->
  set_from_row g r c labels = ([Observation (g_name g) x labels], Done tt).
Proof.
  intros Hc Hx. unfold set_from_row.
  assert (Z.to_nat c < length r)%nat by (apply nth_error_Some; congruence).
  replace (truthy r) with true by (destruct r; simpl in *; [lia|done]).
  replace (len r >=? c) with true
    by (symmetry; unfold len; apply Z.geb_le; lia).
  simpl. by rewrite (py_index_in_range r c x).
Qed.

Lemma set_from_row_short g r c labels :
  r = [] \/ len r < c -> set_from_row g r c labels = ([], Done tt).
Proof.
  intros [->|H]; [reflexivity|]. unfold set_from_row.
  replace (len r >=? c) with false; [by rewrite andb_false_r|].
  symmetry. rewrite Z.geb_leb. apply Z.leb_gt. lia.
Qed.

(** The label loop only rewrites the values of keys it is given. *)
Lemma g_labels_loop_dom r items aux aux' :
  g_labels_loop r items aux = Done aux' ->
  dom aux' = dom aux ∪ list_to_set items.*1.
Proof.
  revert aux. induction items as [|[k v] items IH]; intros aux; simpl.
  - intros [= ->]. set_solver.
  - destruct (g_label_value r v) as [x|e]; [|done].
    intros H. rewrite (IH _ H), dom_insert_L. set_solver.
Qed.

Lemma g_labels_aux_dom r labels aux :
  g_labels_aux r labels = Done aux -> dom aux = dom labels.
Proof.
  unfold g_labels_aux. intros H.
  rewrite (g_labels_loop_dom _ _ _ _ H), dom_fmap_L.
  assert (list_to_set (map_to_list labels).*1 ⊆ dom labels); [|set_solver].
  intros k. rewrite elem_of_list_to_set, list_elem_of_fmap.
  intros ([k' v] & -> & Hkv). apply elem_of_map_to_list in Hkv.
  apply elem_of_dom. by eexists.
Qed.

Lemma g_labels_loop_other r items aux aux' k :
  g_labels_loop r items aux = Done aux' ->
  k ∉ items.*1 -> aux' !! k = aux !! k.
Proof.
  revert aux. induction items as [|[k' v] items IH]; intros aux; simpl.
  - by intros [= ->].
  - destruct (g_label_value r v) as [x|e]; [|done].
    intros H Hk. rewrite not_elem_of_cons in Hk. destruct Hk as [Hne Hk].
    rewrite (IH _ H Hk). by apply lookup_insert_ne.
Qed.

Lemma g_labels_loop_lookup r items aux aux' k v :
  NoDup items.*1 ->
  g_labels_loop r items aux = Done aux' ->
  (k, v) ∈ items ->
  exists x, g_label_value r v = Done x /\ aux' !! k = Some x.
Proof.
  revert aux. induction items as [|[k' v'] items IH]; intros aux Hnd; simpl.
  - intros _ Hin. by apply elem_of_nil in Hin.
  - rewrite fmap_cons in Hnd. simpl in Hnd.
    apply NoDup_cons in Hnd as [Hk' Hnd].
    destruct (g_label_value r v') as [x|e] eqn:Hv'; [|done].
    intros H Hin. apply elem_of_cons in Hin as [[= -> ->]|Hin].
    + exists x. split; [done|].
      rewrite (g_labels_loop_other _ _ _ _ _ H Hk'). apply lookup_insert_eq.
    + by apply (IH _ Hnd H).
Qed.

Lemma g_labels_loop_raised r items aux e :
  g_labels_loop r items aux = Raised e ->
  exists k v, (k, v) ∈ items /\ g_label_value r v = Raised e.
Proof.
  revert aux. induction items as [|[k v] items IH]; intros aux; simpl; [done|].
  destruct (g_label_value r v) as [x|e'] eqn:Hv.
  - intros H. destruct (IH _ H) as (k' & v' & Hin & Hr).
    exists k', v'. split; [by apply elem_of_cons; right|done].
  - intros [= <-]. exists k, v. split; [apply elem_of_cons; by left|done].
Qed.

(** The resolved labels do not depend on the order in which the items of
    the dict are visited: each key gets the value its own template resolves
    to, and the loop raises exactly when one of the templates does. *)
Lemma g_labels_aux_lookup r labels aux k v :
  g_labels_aux r labels = Done aux ->
  labels !! k = Some v ->
  exists x, g_label_value r v = Done x /\ aux !! k = Some x.
Proof.
  unfold g_labels_aux. intros H Hk.
  apply (g_labels_loop_lookup _ _ _ _ _ _ (NoDup_fst_map_to_list labels) H).
  by apply elem_of_map_to_list.
Qed.

Lemma g_labels_aux_raised r labels e :
  g_labels_aux r labels = Raised e ->
  exists k v, labels !! k = Some v /\ g_label_value r v = Raised e.
Proof.
  unfold g_labels_aux. intros H.
  apply g_labels_loop_raised in H as (k & v & Hin & Hr).
  exists k, v. split; [by apply elem_of_map_to_list|done].
Qed.

(** Every observation carries the gauge's keys merged under the
    connection labels. *)
Lemma gauge_branches_emitted cl res g c o :
  In o (emitted (gauge_branches cl res g c)) ->
  ob_name o = g_name g
  /\ exists aux : gmap string value,
       dom aux = dom (g_labels g) /\ ob_labels o = dict_or aux cl.
Proof.
  unfold gauge_branches.
  destruct (negb (has_special_labels (g_labels g))).
  - unfold static_branch. destruct res as [|r rest]; [done|].
    intros H. apply set_from_row_emitted in H as [-> _]. simpl.
    split; [done|]. eexists. split; [|done]. by rewrite dom_fmap_L.
  - unfold dynamic_branch. intros H.
    apply emitted_for_each in H as (r & _ & H). unfold dynamic_row in H.
    apply emitted_bind in H as [[]|(aux & Haux & H)].
    apply set_from_row_emitted in H as [-> _]. simpl.
    split; [done|]. exists aux. split; [|done].
    by apply (g_labels_aux_dom r).
Qed.

Lemma gauges_loop_emitted cl res n gauges o :
  In o (emitted (gauges_loop cl res n gauges)) ->
  exists g, In g gauges /\ ob_name o = g_name g
    /\ exists aux : gmap string value,
         dom aux = dom (g_labels g) /\ ob_labels o = dict_or aux cl.
Proof.
  revert n. induction gauges as [|g gauges IH]; intros n; simpl; [done|].
  intros H. apply emitted_bind in H as [H|(_ & _ & H)].
  - exists g. split; [by left|]. by apply gauge_branches_emitted in H.
  - destruct (IH _ H) as (g' & Hg' & Ho). exists g'. split; [by right|done].
Qed.

Lemma static_branch_emitted cl res g c o :
  In o (emitted (static_branch cl res g c)) ->
  ob_labels o = dict_or (Str <$> g_labels g) cl.
Proof.
  unfold static_branch. destruct res as [|r rest]; [done|].
  intros H. by apply set_from_row_emitted in H as [-> _].
Qed.

(** C1, amended: for a key that the gauge's [extra_labels] and the
    connection labels share, every observation carries the connection-level
    value, in the static and in the dynamic branch alike; a literal gauge
    label is emitted by the static branch only for a key the connection
    labels do not have. *)
Theorem C1_connection_labels_win cfg res g_counter g o k t :
  In o (emitted (gauge_body (c_labels cfg) res g_counter g)) ->
  g_labels g !! k = Some t ->
  (forall v, c_labels cfg !! k = Some v -> ob_labels o !! k = Some v)
  /\ (c_labels cfg !! k = None ->
      has_special_labels (g_labels g) = false ->
      ob_labels o !! k = Some (Str t)).
Proof.
  intros Ho Hk. split.
  - intros v Hv.
    apply gauge_branches_emitted in Ho as (_ & aux & _ & ->).
    by apply dict_or_lookup_r.
  - intros Hnone Hstatic. unfold gauge_body, gauge_branches in Ho.
    rewrite Hstatic in Ho. simpl in Ho.
    rewrite (static_branch_emitted _ _ _ _ _ Ho).
    rewrite dict_or_lookup_l by done. by rewrite lookup_fmap, Hk.
Qed.

Lemma c_labels_connection_label cfg k :
  c_labels cfg !! k = Spec.connection_label INVALID_LABEL_STR cfg k.
Proof.
  unfold c_labels, Spec.connection_label, dict_or.
  assert (Hpad : forall (m : gmap string value),
    (m ∪ gset_to_gmap (Str INVALID_LABEL_STR) max_conn_labels) !! k
    = match m !! k with
      | Some v => Some v
      | None => if decide (k ∈ max_conn_labels)
                then Some (Str INVALID_LABEL_STR) else None
      end).
  { intros m. destruct (m !! k) as [v|] eqn:Hm.
    - by apply lookup_union_Some_l.
    - rewrite lookup_union_r by done. case_decide.
      + by apply lookup_gset_to_gmap_Some.
      + by apply lookup_gset_to_gmap_None. }
  rewrite Hpad. clear Hpad.
  assert (Hthree :
    ({[ "dbhost" := db_host cfg; "dbport" := db_port cfg;
        "dbname" := db_name cfg ]} : gmap string value) !! k
    = if decide (k = "dbhost") then Some (db_host cfg)
      else if decide (k = "dbport") then Some (db_port cfg)
      else if decide (k = "dbname") then Some (db_name cfg)
      else None).
  { rewrite !lookup_insert, lookup_singleton.
    repeat case_decide; simplify_eq; done. }
  assert (Hmax : k ∈ max_conn_labels
                 <-> k = "dbhost" \/ k = "dbport" \/ k = "dbname"
                     \/ k = "dbenv" \/ k = "dbinstance").
  { unfold max_conn_labels. set_solver. }
  destruct (conn_extra_labels cfg) as [extra|]; simpl.
  - destruct (extra !! k) as [v|] eqn:Hextra.
    + by rewrite (lookup_union_Some_l _ _ _ _ Hextra).
    + rewrite lookup_union_r, Hthree by done.
      repeat case_decide; try done; exfalso; tauto.
  - rewrite Hthree. repeat case_decide; try done; exfalso; tauto.
Qed.

(** C10: every observation of a pass has the five connection keys
    [dbhost], [dbport], [dbname], [dbenv] and [dbinstance]; the connection
    labels are the sentinel on exactly these five keys overlaid with the
    connection's own values, so [dbenv] and [dbinstance] are the sentinel
    unless the connection's [extra_labels] has them, and then they are the
    value found there; every connection label of an observation is the one
    this overlay gives, so [dbhost], [dbport] and [dbname] carry the
    connection's host, port and name unless [extra_labels] replaces them. *)
Theorem C10_five_connection_keys cfg res gauges o :
  In o (emitted (map_result cfg res gauges)) ->
  (forall k, k ∈ max_conn_labels -> is_Some (ob_labels o !! k))
  /\ (forall k, k = "dbenv" \/ k = "dbinstance" ->
        (forall extra, conn_extra_labels cfg = Some extra ->
                       extra !! k = None) ->
        ob_labels o !! k = Some (Str INVALID_LABEL_STR))
  /\ (forall k extra v, conn_extra_labels cfg = Some extra ->
        extra !! k = Some v -> ob_labels o !! k = Some v)
  /\ (forall k, k ∈ max_conn_labels <->
        k = "dbhost" \/ k = "dbport" \/ k = "dbname"
        \/ k = "dbenv" \/ k = "dbinstance")
  /\ (forall k v, Spec.connection_label INVALID_LABEL_STR cfg k = Some v ->
        ob_labels o !! k = Some v).
Proof.
  intros Ho. apply gauges_loop_emitted in Ho as (g & _ & _ & aux & _ & Hl).
  split; [|split; [|split; [|split]]].
  - intros k Hk. apply elem_of_dom. rewrite Hl, dict_or_dom, c_labels_dom.
    set_solver.
  - intros k Hk Hextra. rewrite Hl. apply dict_or_lookup_r.
    apply c_labels_padding; [| | | |done];
      destruct Hk as [-> | ->]; unfold max_conn_labels;
      first [set_solver | discriminate].
  - intros k extra v He Hk. rewrite Hl. apply dict_or_lookup_r.
    by apply (c_labels_extra cfg extra).
  - intros k. unfold max_conn_labels. set_solver.
  - intros k v Hk. rewrite Hl. apply dict_or_lookup_r.
    by rewrite c_labels_connection_label.
Qed.

Lemma bindings_from_succ n gauges :
  imap ((fun i g => (Spec.column (n + Z.of_nat i) g, g)) ∘ S) gauges
  = Spec.bindings_from (n + 1) gauges.
Proof.
  unfold Spec.bindings_from. apply imap_ext. intros i g _. simpl.
  do 2 f_equal. lia.
Qed.

Lemma gauges_loop_positions cl res n gauges :
  gauges_loop cl res n gauges
  = (for_each (Spec.bindings_from n gauges)
       (fun cg => gauge_branches cl res cg.2 cg.1);;
     ret (n + len gauges)).
Proof.
  revert n. induction gauges as [|g gauges IH]; intros n.
  - unfold len. simpl. unfold ret. by rewrite Z.add_0_r.
  - simpl gauges_loop. rewrite IH. unfold Spec.bindings_from at 2.
    rewrite imap_cons, bindings_from_succ. simpl for_each.
    rewrite bind_assoc. unfold gauge_body, col, Spec.column.
    rewrite Z.add_0_r. simpl fst. simpl snd.
    replace (n + len (g :: gauges)) with (n + 1 + len gauges); [done|].
    unfold len. simpl length. lia.
Qed.

(** C6: the gauge loop of a pass is the gauges in declared order, the one
    at zero-based position [i] processed with value column [col - 1] when
    it has a [col] and [i] otherwise, whichever branch it takes; the counter
    starts at 0 and ends at the number of gauges. *)
Theorem C6_counter_is_position cfg res gauges :
  map_result cfg res gauges
  = (for_each (Spec.bindings gauges)
       (fun cg => gauge_branches (c_labels cfg) res cg.2 cg.1);;
     ret (len gauges))
  /\ (forall (i : nat) g, gauges !! i = Some g ->
        Spec.bindings gauges !! i
        = Some (match g_col g with
                | Some c => c - 1
                | None => Z.of_nat i
                end, g)).
Proof.
  split.
  - unfold map_result, Spec.bindings. by rewrite gauges_loop_positions.
  - intros i g Hg. unfold Spec.bindings, Spec.bindings_from.
    rewrite list_lookup_imap, Hg. reflexivity.
Qed.

(** C7, amended: in the static branch only the first row of a non-empty
    result set is consulted, whatever follows it; when that row has the
    value column, exactly one observation is emitted, with the value at
    that column and the gauge labels under the connection labels; when that
    row is empty or has fewer than [col] columns, nothing is emitted. *)
Theorem C7_static_first_row_only cl g g_counter r rest :
  has_special_labels (g_labels g) = false ->
  gauge_body cl (r :: rest) g_counter g = gauge_body cl [r] g_counter g
  /\ (forall x, 0 <= col g g_counter ->
        nth_error r (Z.to_nat (col g g_counter)) = Some x ->
        gauge_body cl (r :: rest) g_counter g
        = ([Observation (g_name g) x (dict_or (Str <$> g_labels g) cl)],
           Done tt))
  /\ (r = [] \/ len r < col g g_counter ->
      gauge_body cl (r :: rest) g_counter g = ([], Done tt)).
Proof.
  intros Hstatic. unfold gauge_body, gauge_branches. rewrite Hstatic.
  simpl. split; [done|]. split.
  - intros x Hc Hx. by apply set_from_row_in_range.
  - apply set_from_row_short.
Qed.

Lemma g_label_value_empty v :
  Shape.label_resolves v = true ->
  g_label_value [] v = Done (Str INVALID_LABEL_STR).
Proof.
  unfold Shape.label_resolves, g_label_value.
  by destruct (g_label_index v).
Qed.

Lemma g_label_value_empty_cases v :
  g_label_value [] v = Done (Str INVALID_LABEL_STR)
  \/ g_label_value [] v = Raised ValueError.
Proof.
  unfold g_label_value, g_label_index.
  destruct (PyStr.re_match_placeholder v) as [ds|]; [|by left].
  destruct (PyStr.int ds); [by left|by right].
Qed.

Lemma g_labels_loop_empty_cases items aux :
  (exists aux', g_labels_loop [] items aux = Done aux')
  \/ g_labels_loop [] items aux = Raised ValueError.
Proof.
  revert aux. induction items as [|[k v] items IH]; intros aux; simpl.
  - left. by eexists.
  - destruct (g_label_value_empty_cases v) as [-> | ->]; [apply IH|by right].
Qed.

Lemma g_labels_loop_empty items aux :
  forallb (fun kv => Shape.label_resolves kv.2) items = true ->
  exists aux', g_labels_loop [] items aux = Done aux'.
Proof.
  revert aux. induction items as [|[k v] items IH]; intros aux; simpl.
  - by eexists.
  - intros H. apply andb_true_iff in H as [Hv H].
    rewrite (g_label_value_empty v Hv). by apply IH.
Qed.

Lemma dynamic_row_empty_cases cl g c :
  dynamic_row cl g c [] = ([], Done tt)
  \/ dynamic_row cl g c [] = ([], Raised ValueError).
Proof.
  unfold dynamic_row, g_labels_aux.
  destruct (g_labels_loop_empty_cases (map_to_list (g_labels g))
              (Str <$> g_labels g)) as [[aux ->] | ->]; [by left|by right].
Qed.

Lemma dynamic_row_empty cl g c :
  Shape.labels_resolve g = true -> dynamic_row cl g c [] = ([], Done tt).
Proof.
  intros H. unfold dynamic_row, g_labels_aux.
  destruct (g_labels_loop_empty (map_to_list (g_labels g))
              (Str <$> g_labels g) H) as [aux ->].
  reflexivity.
Qed.

Lemma gauge_branches_no_rows cl g c :
  gauge_branches cl [] g c = ([], Done tt).
Proof. unfold gauge_branches. by destruct (negb _). Qed.

Lemma emitted_then_nil {A} (m : M unit) (n : M A) :
  emitted m = [] -> emitted n = [] -> emitted (m;; n) = [].
Proof.
  rewrite bind_unfold. destruct m as [log [[]|e]], n as [log' r]; simpl.
  - by intros -> ->.
  - by intros ->.
Qed.

(** Rows without columns give no observation, whatever the labels are. *)
Lemma gauge_branches_empty_rows_emitted cl (res : list row) g c :
  (forall r, In r res -> r = []) ->
  emitted (gauge_branches cl res g c) = [].
Proof.
  intros Hres. unfold gauge_branches. destruct (negb _).
  - unfold static_branch. destruct res as [|r rest]; [done|].
    by rewrite (Hres r (or_introl eq_refl)).
  - unfold dynamic_branch. induction res as [|r res IH]; [done|].
    simpl for_each. apply emitted_then_nil.
    + rewrite (Hres r (or_introl eq_refl)).
      by destruct (dynamic_row_empty_cases cl g c) as [-> | ->].
    + apply IH. intros r' Hr'. apply Hres. by right.
Qed.

(** With labels that resolve they also raise nothing. *)
Lemma gauge_branches_empty_rows cl (res : list row) g c :
  Shape.labels_resolve g = true ->
  (forall r, In r res -> r = []) ->
  gauge_branches cl res g c = ([], Done tt).
Proof.
  intros Hg Hres. unfold gauge_branches. destruct (negb _).
  - unfold static_branch. destruct res as [|r rest]; [done|].
    by rewrite (Hres r (or_introl eq_refl)).
  - unfold dynamic_branch. induction res as [|r res IH]; [done|].
    simpl for_each. rewrite (Hres r (or_introl eq_refl)).
    rewrite (bind_skip _ _ (dynamic_row_empty cl g c Hg)).
    apply IH. intros r' Hr'. apply Hres. by right.
Qed.

Lemma gauges_loop_emits_nothing cl res n gauges :
  (forall g c, emitted (gauge_branches cl res g c) = []) ->
  emitted (gauges_loop cl res n gauges) = [].
Proof.
  intros Hres. revert n. induction gauges as [|g gauges IH]; intros n; [done|].
  simpl gauges_loop. apply emitted_then_nil; [apply Hres|apply IH].
Qed.

Lemma gauges_loop_silent cl res n gauges :
  (forall g c, In g gauges -> gauge_branches cl res g c = ([], Done tt)) ->
  gauges_loop cl res n gauges = ([], Done (n + len gauges)).
Proof.
  revert n. induction gauges as [|g gauges IH]; intros n Hres; simpl.
  - unfold len. simpl. by rewrite Z.add_0_r.
  - unfold gauge_body. rewrite Hres, bind_skip by (done || by left).
    rewrite IH by (intros; apply Hres; by right).
    replace (n + len (g :: gauges)) with (n + 1 + len gauges); [done|].
    unfold len. simpl length. lia.
Qed.

Lemma labels_resolve_all (gauges : list gauge) g :
  forallb Shape.labels_resolve gauges = true -> In g gauges ->
  Shape.labels_resolve g = true.
Proof. intros H Hg. rewrite forallb_forall in H. by apply H. Qed.


End AppFacts.

(** ** The properties on sample inputs *)

Lemma C1_connection_labels_win_witness :
  ob_labels Sample.obs_sessions !! "dbname" = Some (Str "orcl").
Proof.
  apply (proj1 (C1_connection_labels_win "-" Sample.cfg_h1 [[Int 7]] 0
                  Sample.g_clash Sample.obs_sessions "dbname" "reporting"
                  ltac:(vm_compute; left; reflexivity)
                  ltac:(vm_compute; reflexivity))).
  vm_compute. reflexivity.
Defined.

(** C1 as stated fails: the gauge sets [dbname] to the literal
    [reporting], the connection's [db_name] is [orcl], and the observation
    carries [orcl], in the static and in the dynamic branch. *)
Lemma C1_counterexample :
  ~ Spec.gauge_labels_win "-" Sample.cfg_h1 [[Int 7]] 0 Sample.g_clash
  /\ ~ Spec.gauge_labels_win "-" Sample.cfg_h1 Sample.rows_ab 0
         Sample.g_env_clash.
Proof.
  split; intros H.
  - specialize (H Sample.obs_sessions "dbname" "reporting").
    assert (Hfalse : ob_labels Sample.obs_sessions !! "dbname"
                     = Some (Str "reporting")).
    { apply H; [vm_compute; left; reflexivity | vm_compute; reflexivity
               | reflexivity | by eexists; vm_compute]. }
    vm_compute in Hfalse. discriminate Hfalse.
  - pose (o := Observation "ts_used" (Int 10)
                 (<["env" := Str "A"]> Sample.labels_h1)).
    specialize (H o "dbname" "reporting").
    assert (Hfalse : ob_labels o !! "dbname" = Some (Str "reporting")).
    { apply H; [vm_compute; left; reflexivity | vm_compute; reflexivity
               | reflexivity | by eexists; vm_compute]. }
    vm_compute in Hfalse. discriminate Hfalse.
Qed.

Lemma C10_five_connection_keys_witness :
  is_Some (ob_labels Sample.obs_sessions !! "dbinstance")
  /\ ob_labels Sample.obs_sessions !! "dbenv" = Some (Str "-")
  /\ ob_labels Sample.obs_sessions_prod !! "dbenv" = Some (Str "prod")
  /\ ob_labels Sample.obs_sessions !! "dbhost" = Some (Str "h1").
Proof.
  pose proof (C10_five_connection_keys "-" Sample.cfg_h1 [[Int 7]]
                [Sample.g_plain] Sample.obs_sessions
                ltac:(vm_compute; left; reflexivity))
    as (Hkeys & Hpad & _ & _ & Hval).
  pose proof (C10_five_connection_keys "-" Sample.cfg_prod [[Int 7]]
                [Sample.g_plain] Sample.obs_sessions_prod
                ltac:(vm_compute; left; reflexivity)) as (_ & _ & Hextra & _).
  split; [|split; [|split]].
  - apply Hkeys. vm_compute. reflexivity.
  - apply Hpad; [by left|]. intros extra He. discriminate He.
  - apply (Hextra "dbenv" {[ "dbenv" := Str "prod" ]}); reflexivity.
  - apply Hval. reflexivity.
Defined.

Lemma C6_counter_is_position_witness :
  Spec.bindings [Sample.g_env; Sample.g_plain; Sample.g_first] !! 1%nat
  = Some (1, Sample.g_plain).
Proof.
  apply (proj2 (C6_counter_is_position "-" Sample.cfg_h1 Sample.rows_ab
                  [Sample.g_env; Sample.g_plain; Sample.g_first])
           1%nat Sample.g_plain).
  reflexivity.
Defined.

Lemma C7_static_first_row_only_witness :
  gauge_body "-" Sample.labels_h1 Sample.rows_ab 0 Sample.g_second
  = ([Observation "sessions" (Int 10) Sample.labels_h1], Done tt)
  /\ gauge_body "-" Sample.labels_h1 [[]; [Int 1]] 0 Sample.g_second
     = ([], Done tt).
Proof.
  split.
  - pose proof (proj1 (proj2 (C7_static_first_row_only "-" Sample.labels_h1
                  Sample.g_second 0 [Str "A"; Int 10] [[Str "B"; Int 20]]
                  ltac:(reflexivity))) (Int 10)
                  ltac:(vm_compute; discriminate) ltac:(reflexivity)) as H.
    refine (eq_trans H _). vm_compute. reflexivity.
  - apply (proj2 (proj2 (C7_static_first_row_only "-" Sample.labels_h1
                  Sample.g_second 0 [] [[Int 1]] ltac:(reflexivity)))).
    by left.
Defined.

(** C7 as stated fails: the result set of a failed execution is not empty,
    its only row has no columns, and the static branch emits nothing. *)
Lemma C7_counterexample :
  ~ Spec.static_emits_one "-" Sample.labels_h1 [[]] 0 Sample.g_plain.
Proof.
  intros H. destruct H as (o & Ho & _); [reflexivity | discriminate |].
  vm_compute in Ho. discriminate Ho.
Qed.

(** The labels that resolve: the literals, and the placeholders of at
    most 4300 digits. *)
Lemma label_resolves_iff (v : string) :
  Shape.label_resolves v = true
  <-> forall ds, PyStr.re_match_placeholder v = Some ds ->
                 Z.of_nat (String.length ds) <= PyStr.int_max_str_digits.
Proof.
  unfold Shape.label_resolves, g_label_index, PyStr.int.
  destruct (PyStr.re_match_placeholder v) as [ds|]; [|by split].
  destruct (PyStr.int_max_str_digits <? Z.of_nat (String.length ds)) eqn:Hlen.
  - apply Z.ltb_lt in Hlen. split; [discriminate|].
    intros H. specialize (H ds eq_refl). lia.
  - apply Z.ltb_ge in Hlen. split; [|done]. by intros _ ds' [= <-].
Qed.



(** ** Where the code leaves the specification *)

(** A label that is not a placeholder, resolved in the dynamic branch, is
    the first column of the row, or the sentinel on a row without columns. *)
Lemma g_label_value_literal inv (r : row) v :
  is_placeholder v = false ->
  g_label_value inv r v
  = match r with
    | [] => Done (Str inv)
    | x :: _ => Done x
    end.
Proof.
  unfold is_placeholder, g_label_value, g_label_index.
  destruct (PyStr.re_match_placeholder v); [discriminate|]. intros _.
  destruct r as [|x r]; [reflexivity|].
  unfold len. simpl length.
  replace (Z.of_nat (S (length r)) >=? 0) with true
    by (symmetry; apply Z.geb_le; lia).
  simpl. unfold py_index, len. simpl length.
  replace (0 <? Z.of_nat (S (length r))) with true
    by (symmetry; apply Z.ltb_lt; lia).
  reflexivity.
Qed.

(** A placeholder [$n] with [n >= 1] and digits that [int] converts: the
    column when the row has it, the sentinel when the row has fewer than
    [n - 1] columns or none at all, and an exception when the row has
    exactly [n - 1] columns. *)
Lemma g_label_value_placeholder inv (r : row) v ds n :
  PyStr.re_match_placeholder v = Some ds ->
  PyStr.int ds = Some n ->
  1 <= n ->
  (forall x, nth_error r (Z.to_nat (n - 1)) = Some x ->
             g_label_value inv r v = Done x)
  /\ (r = [] \/ len r < n - 1 ->
      g_label_value inv r v = Done (Str inv))
  /\ (r <> [] -> len r = n - 1 ->
      g_label_value inv r v = Raised IndexError).
Proof.
  intros Hm Hint Hn. unfold g_label_value, g_label_index. rewrite Hm, Hint.
  split; [|split].
  - intros x Hx.
    assert (Z.to_nat (n - 1) < length r)%nat
      by (apply nth_error_Some; congruence).
    replace (truthy r) with true by (destruct r; simpl in *; [lia|done]).
    replace (len r >=? n - 1) with true
      by (symmetry; unfold len; apply Z.geb_le; lia).
    simpl. apply py_index_in_range; [lia|done].
  - intros [->|Hlt]; [reflexivity|].
    replace (len r >=? n - 1) with false;
      [by rewrite andb_false_r|].
    symmetry. rewrite Z.geb_leb. apply Z.leb_gt. lia.
  - intros Hr Hlen.
    replace (truthy r) with true by (by destruct r).
    replace (len r >=? n - 1) with true
      by (symmetry; apply Z.geb_le; lia).
    simpl. unfold py_index. rewrite <- Hlen.
    replace (len r <? 0) with false
      by (symmetry; apply Z.ltb_ge; unfold len; lia).
    by rewrite Z.ltb_irrefl, andb_false_r.
Qed.

(** A row with exactly [c] columns passes the length test of lines 95 and
    104 and then fails the lookup. *)
Lemma set_from_row_boundary g (r : row) c labels :
  r <> [] -> len r = c ->
  set_from_row g r c labels = ([], Raised IndexError).
Proof.
  intros Hr Hlen. unfold set_from_row.
  replace (truthy r) with true by (by destruct r).
  replace (len r >=? c) with true by (symmetry; apply Z.geb_le; lia).
  simpl. unfold py_index. rewrite <- Hlen.
  replace (len r <? 0) with false
    by (symmetry; apply Z.ltb_ge; unfold len; lia).
  by rewrite Z.ltb_irrefl, andb_false_r.
Qed.

Lemma dynamic_row_at_most_one inv cl g c r :
  (length (emitted (dynamic_row inv cl g c r)) <= 1)%nat.
Proof.
  unfold dynamic_row. destruct (g_labels_aux inv r (g_labels g)) as [aux|e].
  - rewrite bind_unfold. simpl.
    destruct (set_from_row_cases g r c (dict_or aux cl))
      as [H|[H|(x & _ & H)]]; rewrite H; simpl; lia.
  - simpl. lia.
Qed.

(** The label keys of an observation: the gauge's own keys, the five
    hard-coded ones and the keys of this connection's [extra_labels]. *)
Lemma observation_keys inv cfg res gauges o :
  In o (emitted (map_result inv cfg res gauges)) ->
  exists g, In g gauges /\ ob_name o = g_name g
    /\ dom (ob_labels o)
       = dom (g_labels g) ∪ max_conn_labels
         ∪ match conn_extra_labels cfg with
           | Some extra => dom extra
           | None => ∅
           end.
Proof.
  intros H. apply gauges_loop_emitted in H as (g & Hg & Hn & aux & Hd & Hl).
  exists g. split; [done|]. split; [done|].
  rewrite Hl, dict_or_dom, c_labels_dom, Hd. set_solver.
Qed.

(** C2 on the code: the gauge has the placeholder label [env] and the
    literal label [kind := fixed]; both observations carry the first column
    of their row under [kind]. *)
Theorem C2_literal_label_replaced :
  is_placeholder "fixed" = false
  /\ g_label_value "-" [Str "A"; Int 10] "fixed" = Done (Str "A")
  /\ map (fun o => (ob_value o, ob_labels o !! "env", ob_labels o !! "kind"))
       (emitted (map_result "-" Sample.cfg_h1 Sample.rows_ab
                   [Sample.g_env_kind]))
     = [(Int 10, Some (Str "A"), Some (Str "A"));
        (Int 20, Some (Str "B"), Some (Str "B"))].
Proof. repeat split; vm_compute; reflexivity. Qed.

(** C3 on the code: the placeholder [$2] against a row of one column
    raises, and the pass ends there. *)
Theorem C3_row_one_short_raises :
  PyStr.re_match_placeholder "$2" = Some "2"
  /\ g_label_value "-" [Str "A"] "$2" = Raised IndexError
  /\ map_result "-" Sample.cfg_h1 [[Str "A"]] [Sample.g_second_col_label]
     = ([], Raised IndexError).
Proof. repeat split; vm_compute; reflexivity. Qed.

(** C4 on the code: the first row has one column and the gauge reads the
    second; the lookup raises, the second row and the second gauge are never
    reached, and the cycle ends with the error logged and no observation. *)
Theorem C4_row_one_short_aborts_pass :
  map_result "-" Sample.cfg_h1 Sample.rows_short_first
    [Sample.g_env; Sample.g_first]
  = ([], Raised IndexError)
  /\ query_set "-" (Sample.serving_driver Sample.rows_short_first)
       Sample.cfg_h1 {| conn := false |} Sample.q_tablespaces
     = Cycle {| conn := true |} ["select name, used from ts"] []
         (Some IndexError) false.
Proof. split; vm_compute; reflexivity. Qed.

(** C5 on the code: one connection without [extra_labels] and one gauge
    without labels; the gauge is registered with [dbhost], [dbport] and
    [dbname], and its observation also carries [dbenv] and [dbinstance]. *)
Theorem C5_keys_differ_from_registered :
  emitted (map_result "-" Sample.cfg_h1 [[Int 7]] [Sample.g_plain])
  = [Sample.obs_sessions]
  /\ start_prometheus_exporter [Sample.q_sessions]
       (get_labels_list [Sample.cfg_h1])
     = Done [("sessions",
              registered_labels (get_labels_list [Sample.cfg_h1])
                Sample.g_plain)]
  /\ (forall k,
        k ∈ registered_labels (get_labels_list [Sample.cfg_h1]) Sample.g_plain
        <-> k = "dbhost" \/ k = "dbport" \/ k = "dbname")
  /\ ob_labels Sample.obs_sessions !! "dbenv" = Some (Str "-")
  /\ dom (ob_labels Sample.obs_sessions)
     <> registered_labels (get_labels_list [Sample.cfg_h1]) Sample.g_plain.
Proof.
  assert (Hreg : forall k,
    k ∈ registered_labels (get_labels_list [Sample.cfg_h1]) Sample.g_plain
    <-> k = "dbhost" \/ k = "dbport" \/ k = "dbname").
  { intros k. unfold registered_labels, get_labels_list, g_labels. simpl.
    rewrite dom_empty_L. set_solver. }
  split; [vm_compute; reflexivity|]. split; [reflexivity|].
  split; [exact Hreg|]. split; [vm_compute; reflexivity|].
  intros Heq.
  assert (Hin : "dbenv" ∈ dom (ob_labels Sample.obs_sessions)).
  { apply elem_of_dom. eexists. vm_compute. reflexivity. }
  rewrite Heq in Hin. apply Hreg in Hin.
  destruct Hin as [H|[H|H]]; discriminate H.
Qed.

(** * Further properties of the code *)

(** ** The statement filter and the placeholder pattern *)

Lemma append_cons (c : ascii) (s t : string) :
  String c s +:+ t = String c (s +:+ t).
Proof. reflexivity. Qed.

Lemma append_nil_l (t : string) : "" +:+ t = t.
Proof. reflexivity. Qed.

Lemma append_nil_r (s : string) : s +:+ "" = s.
Proof. induction s as [|c s IH]; [done|]. by rewrite append_cons, IH. Qed.

Lemma lstrip_split (q : string) :
  exists ws, q = ws +:+ PyStr.lstrip q /\ Shape.all_space ws = true.
Proof.
  induction q as [|c q (ws & Hq & Hws)]; [by exists ""|]. simpl.
  destruct (PyStr.is_space c) eqn:Hc.
  - exists (String c ws). rewrite append_cons, <- Hq. simpl.
    by rewrite Hc, Hws.
  - by exists "".
Qed.

Lemma lstrip_all_space (ws t : string) :
  Shape.all_space ws = true -> PyStr.lstrip (ws +:+ t) = PyStr.lstrip t.
Proof.
  induction ws as [|c ws IH]; [done|]. simpl Shape.all_space.
  intros H. apply andb_true_iff in H as [Hc H].
  rewrite append_cons. simpl. rewrite Hc. by apply IH.
Qed.

Lemma prefix_lower_iff (p t : string) :
  String.prefix p (PyStr.lower t) = true
  <-> exists kw rest, t = kw +:+ rest /\ PyStr.lower kw = p.
Proof.
  revert t. induction p as [|a p IH]; intros t.
  - split; [|by destruct (PyStr.lower t)]. intros _. by exists "", t.
  - destruct t as [|d t]; simpl.
    + split; [done|]. intros (kw & rest & Ht & Hkw).
      destruct kw; [discriminate Hkw|]. rewrite append_cons in Ht.
      discriminate Ht.
    + destruct (ascii_dec a (PyStr.lower_char d)) as [->|Hne].
      * rewrite IH. split.
        -- intros (kw & rest & -> & <-). by exists (String d kw), rest.
        -- intros (kw & rest & Ht & Hkw).
           destruct kw as [|d' kw]; [discriminate Hkw|].
           rewrite append_cons in Ht. injection Ht as -> ->.
           simpl in Hkw. injection Hkw as Hkw. by exists kw, rest.
      * split; [done|]. intros (kw & rest & Ht & Hkw).
        destruct kw as [|d' kw]; [discriminate Hkw|].
        rewrite append_cons in Ht. injection Ht as -> ->.
        simpl in Hkw. injection Hkw as Hd _. by destruct Hne.
Qed.

(** X1: a statement whose characters are code points below 256 passes
    the filter of [execute] exactly when it is some whitespace, then six
    characters that lower to [select], then anything at all. *)
Theorem is_select_iff (query : string) :
  Ora.is_select query = true
  <-> exists ws kw rest,
        query = ws +:+ kw +:+ rest
        /\ Shape.all_space ws = true
        /\ PyStr.lower kw = "select".
Proof.
  unfold Ora.is_select. rewrite PyStrFacts.strip_select.
  unfold PyStr.startswith. split.
  - intros H. apply prefix_lower_iff in H as (kw & rest & Hq & Hkw).
    destruct (lstrip_split query) as (ws & Hws & Hsp).
    exists ws, kw, rest. by rewrite <- Hq.
  - intros (ws & kw & rest & -> & Hws & Hkw).
    rewrite lstrip_all_space by done. apply prefix_lower_iff.
    exists kw, rest. split; [|done].
    destruct kw as [|d kw]; [discriminate Hkw|].
    rewrite append_cons. simpl.
    replace (PyStr.is_space d) with false; [done|].
    symmetry. apply PyStrFacts.lower_char_select_not_space.
    simpl in Hkw. injection Hkw as -> _. simpl. by left.
Qed.

Lemma span_digits_spec (s ds rest : string) :
  PyStr.span_digits s = (ds, rest) ->
  s = ds +:+ rest /\ Shape.all_digits ds = true.
Proof.
  revert ds rest. induction s as [|c s IH]; intros ds rest; simpl.
  - by intros [= <- <-].
  - destruct (PyStr.is_digit c) eqn:Hc.
    + destruct (PyStr.span_digits s) as [ds' rest'].
      intros [= <- <-]. destruct (IH _ _ eq_refl) as [Hs Hd].
      rewrite append_cons, <- Hs. simpl. by rewrite Hc, Hd.
    + by intros [= <- <-].
Qed.

Lemma span_digits_app (ds tail : string) :
  Shape.all_digits ds = true ->
  tail = "" \/ tail = PyStr.newline ->
  PyStr.span_digits (ds +:+ tail) = (ds, tail).
Proof.
  intros Hd Htail. induction ds as [|c ds IH].
  - by destruct Htail as [-> | ->].
  - simpl in Hd. apply andb_true_iff in Hd as [Hc Hd].
    rewrite append_cons. simpl. by rewrite Hc, IH.
Qed.

Lemma code_dollar (c : ascii) : (PyStr.code c =? 36)%N = true -> c = "$"%char.
Proof.
  intros H. apply N.eqb_eq in H. unfold PyStr.code in H.
  rewrite <- (ascii_N_embedding c), H. reflexivity.
Qed.

(** X2: a label template whose characters are code points below 256 is
    a placeholder, with captured digits [ds], exactly when it is a dollar
    sign, then the non-empty run of decimal digits [ds], then nothing or a
    single newline. *)
Theorem re_match_placeholder_iff (v ds : string) :
  PyStr.re_match_placeholder v = Some ds
  <-> ds <> ""
      /\ Shape.all_digits ds = true
      /\ (v = "$" +:+ ds \/ v = "$" +:+ ds +:+ PyStr.newline).
Proof.
  split.
  - destruct v as [|c t]; simpl; [done|].
    destruct (PyStr.code c =? 36)%N eqn:Hc; [|done].
    apply code_dollar in Hc as ->.
    destruct (PyStr.span_digits t) as [ds' rest] eqn:Hspan.
    apply span_digits_spec in Hspan as [-> Hd].
    destruct ds' as [|d ds']; [done|]. simpl PyStr.is_empty. cbv iota.
    destruct (PyStr.is_empty rest || String.eqb rest PyStr.newline) eqn:Hr;
      [|done].
    intros [= <-]. split; [done|]. split; [done|].
    rewrite !append_cons, !append_nil_l.
    apply orb_true_iff in Hr as [Hr|Hr].
    + left. destruct rest; [|done]. by rewrite append_nil_r.
    + right. by apply String.eqb_eq in Hr as ->.
  - intros (Hne & Hd & Hv).
    assert (Hspan : exists tail, (tail = "" \/ tail = PyStr.newline)
                                 /\ v = String "$" (ds +:+ tail)).
    { destruct Hv as [-> | ->].
      - exists "". split; [by left|]. by rewrite append_nil_r.
      - exists PyStr.newline. by split; [right|]. }
    destruct Hspan as (tail & Htail & ->). simpl.
    rewrite (span_digits_app ds tail Hd Htail).
    destruct ds as [|d ds]; [done|]. simpl.
    by destruct Htail as [-> | ->].
Qed.

(** ** The mapping of rows to observations *)


Lemma in_row_lookup (r : row) (i : Z) :
  Shape.in_row r i = true ->
  0 <= i /\ nth_error r (Z.to_nat i) = Some (Shape.column r i).
Proof.
  unfold Shape.in_row, Shape.column, len. intros H.
  apply andb_true_iff in H as [H0 H1].
  apply Z.leb_le in H0. apply Z.ltb_lt in H1. split; [done|].
  apply nth_error_nth'. lia.
Qed.

Lemma g_label_value_in_row inv (r : row) v :
  Shape.label_in_row r v = true ->
  g_label_value inv r v = Done (Shape.label_column r v).
Proof.
  unfold Shape.label_in_row, Shape.label_column, g_label_value.
  destruct (g_label_index v) as [i|e]; [|discriminate]. intros H.
  pose proof (in_row_lookup _ _ H) as [H0 Hnth].
  unfold Shape.in_row in H. apply andb_true_iff in H as [_ H1].
  apply Z.ltb_lt in H1.
  replace (truthy r) with true
    by (destruct r; [unfold len in H1; simpl in H1; lia|done]).
  replace (len r >=? i) with true by (symmetry; apply Z.geb_le; lia).
  simpl. by apply py_index_in_range.
Qed.

Lemma g_labels_aux_in_row inv (r : row) (labels : gmap string string) :
  (forall k v, labels !! k = Some v -> Shape.label_in_row r v = true) ->
  g_labels_aux inv r labels = Done (Shape.fan_out_labels r labels).
Proof.
  intros Hall. destruct (g_labels_aux inv r labels) as [aux|e] eqn:Haux.
  - f_equal. apply map_eq. intros k. unfold Shape.fan_out_labels.
    rewrite lookup_fmap. destruct (labels !! k) as [v|] eqn:Hk; simpl.
    + destruct (g_labels_aux_lookup inv _ _ _ _ _ Haux Hk) as (x & Hx & ->).
      rewrite (g_label_value_in_row inv r v (Hall _ _ Hk)) in Hx.
      by injection Hx as ->.
    + apply not_elem_of_dom. rewrite (g_labels_aux_dom inv _ _ _ Haux).
      by apply not_elem_of_dom.
  - apply g_labels_aux_raised in Haux as (k & v & Hk & Hv).
    rewrite (g_label_value_in_row inv r v (Hall _ _ Hk)) in Hv.
    discriminate Hv.
Qed.

Lemma dynamic_row_covered inv cl g c (r : row) :
  Shape.row_covers g c r = true ->
  dynamic_row inv cl g c r
  = ([Observation (g_name g) (Shape.column r c)
        (dict_or (Shape.fan_out_labels r (g_labels g)) cl)], Done tt).
Proof.
  unfold Shape.row_covers. intros H. apply andb_true_iff in H as [Hc Hl].
  unfold dynamic_row. rewrite g_labels_aux_in_row.
  - destruct (in_row_lookup _ _ Hc) as [H0 Hnth].
    rewrite bind_unfold. simpl.
    by rewrite (set_from_row_in_range g r c _ _ H0 Hnth).
  - intros k v Hk. rewrite forallb_forall in Hl.
    apply (Hl (k, v)). by apply list_elem_of_In, elem_of_map_to_list.
Qed.

(** X4: when every row has the value column and the column of every
    label, and every placeholder is within the digits that [int] converts,
    a gauge with a placeholder label gives exactly one observation per row,
    in row order, valued from the value column and labelled from the label
    columns under the connection labels. *)
Theorem dynamic_fan_out inv cl g c (res : list row) :
  has_special_labels (g_labels g) = true ->
  forallb (Shape.row_covers g c) res = true ->
  gauge_branches inv cl res g c = (Shape.fan_out cl g c res, Done tt).
Proof.
  intros Hdyn Hres. unfold gauge_branches, dynamic_branch. rewrite Hdyn.
  simpl negb. cbv iota. induction res as [|r res IH]; [done|].
  simpl in Hres. apply andb_true_iff in Hres as [Hr Hres].
  simpl for_each. rewrite (dynamic_row_covered inv cl g c r Hr), IH by done.
  reflexivity.
Qed.

Lemma dynamic_row_raised inv cl g c (r : row) e :
  result (dynamic_row inv cl g c r) = Raised e ->
  dynamic_row inv cl g c r = ([], Raised e).
Proof.
  unfold dynamic_row. destruct (g_labels_aux inv r (g_labels g)) as [aux|e'].
  - rewrite bind_unfold. simpl.
    destruct (set_from_row_cases g r c (dict_or aux cl))
      as [H|[H|(x & _ & H)]]; rewrite H; simpl; try discriminate.
    by intros [= <-].
  - simpl. by intros [= <-].
Qed.

(** X5: in the dynamic branch the row that raises ends the loop: the
    observations of the rows before it stay emitted, and no later row is
    looked at. *)
Theorem dynamic_branch_stops inv cl g c (before after : list row) r e :
  result (dynamic_row inv cl g c r) = Raised e ->
  result (dynamic_branch inv cl before g c) = Done tt ->
  dynamic_branch inv cl (before ++ r :: after) g c
  = (emitted (dynamic_branch inv cl before g c), Raised e).
Proof.
  intros Hr Hbefore. unfold dynamic_branch in *. rewrite for_each_app.
  destruct (for_each before (dynamic_row inv cl g c)) as [obs o].
  simpl in Hbefore. subst o. simpl for_each.
  rewrite (dynamic_row_raised _ _ _ _ _ _ Hr).
  rewrite bind_unfold. simpl. by rewrite app_nil_r.
Qed.

Lemma emitted_then_length {A} (m : M unit) (n : M A) :
  (length (emitted (m;; n)) <= length (emitted m) + length (emitted n))%nat.
Proof.
  rewrite bind_unfold. destruct m as [log [[]|e]]; simpl.
  - destruct n as [log' r]. simpl. rewrite length_app. lia.
  - lia.
Qed.

Lemma set_from_row_length g (r : row) c labels :
  (length (emitted (set_from_row g r c labels)) <= 1)%nat.
Proof.
  destruct (set_from_row_cases g r c labels) as [H|[H|(x & _ & H)]];
    rewrite H; simpl; lia.
Qed.

Lemma gauge_branches_length inv cl res g c :
  (length (emitted (gauge_branches inv cl res g c))
   <= Shape.gauge_quota res g)%nat.
Proof.
  unfold gauge_branches, Shape.gauge_quota.
  destruct (has_special_labels (g_labels g)); simpl.
  - unfold dynamic_branch. induction res as [|r res IH]; [simpl; lia|].
    simpl for_each.
    pose proof (emitted_then_length (dynamic_row inv cl g c r)
                  (for_each res (dynamic_row inv cl g c))).
    pose proof (dynamic_row_at_most_one inv cl g c r). simpl length. lia.
  - unfold static_branch. destruct res as [|r rest]; [simpl; lia|].
    apply set_from_row_length.
Qed.

(** X6: the body of the gauge loop gives at most one observation for a
    gauge without a placeholder label and at most one per row for a gauge
    with one; so a pass gives at most the sum of these numbers over its
    gauges. *)
Theorem map_result_quota inv cfg res gauges :
  (forall n g,
     (length (emitted (gauge_body inv (c_labels inv cfg) res n g))
      <= Shape.gauge_quota res g)%nat)
  /\ (length (emitted (map_result inv cfg res gauges))
      <= list_sum (map (Shape.gauge_quota res) gauges))%nat.
Proof.
  split; [intros n g; apply gauge_branches_length|].
  unfold map_result. generalize 0 as n.
  induction gauges as [|g gauges IH]; intros n; [simpl; lia|].
  simpl gauges_loop. simpl map. simpl list_sum.
  pose proof (emitted_then_length
                (gauge_body inv (c_labels inv cfg) res n g)
                (gauges_loop inv (c_labels inv cfg) res (n + 1) gauges)).
  pose proof (gauge_branches_length inv (c_labels inv cfg) res g (col g n)).
  specialize (IH (n + 1)). unfold gauge_body in *. lia.
Qed.

(** X7: every observation of a pass is named after one of the gauges of
    the query. *)
Theorem map_result_names inv cfg res gauges o :
  In o (emitted (map_result inv cfg res gauges)) ->
  In (ob_name o) (map g_name gauges).
Proof.
  intros H. apply gauges_loop_emitted in H as (g & Hg & -> & _).
  by apply in_map.
Qed.

(** X8: the gauge loop over two lists in a row is the loop over the first
    followed by the loop over the second, the counter carried over; an
    exception in the first part keeps the second from running. *)
Theorem gauges_loop_app inv cl res n (first second : list gauge) :
  gauges_loop inv cl res n (first ++ second)
  = (gauges_loop inv cl res n first ≫= fun m =>
     gauges_loop inv cl res m second).
Proof.
  revert n. induction first as [|g first IH]; intros n.
  - symmetry. apply (bind_ret_l n).
  - simpl app. simpl gauges_loop. rewrite IH. symmetry. apply bind_assoc.
Qed.

(** ** One cycle of [query_set] *)

Lemma finish_fields {A} oc sent (m : M A) :
  cy_conn (finish oc sent m) = oc
  /\ cy_sent (finish oc sent m) = sent
  /\ cy_observations (finish oc sent m) = emitted m.
Proof. by destruct m as [obs [a|[]]]. Qed.

Lemma rows_empty_or_not (res : list row) :
  (forall r, In r res -> r = []) \/ exists r, In r res /\ r <> [].
Proof.
  induction res as [|r res [IH|(r' & Hin & Hr')]].
  - left. by intros r [].
  - destruct r as [|x r].
    + left. intros r' [<-|Hin]; [done|by apply IH].
    + right. exists (x :: r). by split; [left|].
  - right. exists r'. by split; [right|].
Qed.

Lemma map_result_no_rows inv cfg gauges :
  map_result inv cfg [] gauges = ([], Done (len gauges)).
Proof.
  unfold map_result. apply (gauges_loop_silent inv _ _ 0).
  intros g c _. apply gauge_branches_no_rows.
Qed.

Lemma map_result_empty_rows_emitted inv cfg (res : list row) gauges :
  (forall r, In r res -> r = []) ->
  emitted (map_result inv cfg res gauges) = [].
Proof.
  intros Hres. unfold map_result. apply gauges_loop_emits_nothing.
  intros g c. by apply gauge_branches_empty_rows_emitted.
Qed.

Lemma map_result_empty_rows inv cfg (res : list row) gauges :
  forallb Shape.labels_resolve gauges = true ->
  (forall r, In r res -> r = []) ->
  map_result inv cfg res gauges = ([], Done (len gauges)).
Proof.
  intros Hall Hres. unfold map_result. apply (gauges_loop_silent inv _ _ 0).
  intros g c Hg.
  apply gauge_branches_empty_rows; [by apply (labels_resolve_all gauges)|done].
Qed.

(** X9: a cycle gives observations only when the connection is live at the
    end of it, the statement passed the filter and was sent, and the
    database answered with at least one row that has a column. *)
Theorem query_set_observations_need_rows inv drv cfg oc q :
  cy_observations (query_set inv drv cfg oc q) <> [] ->
  conn (cy_conn (query_set inv drv cfg oc q)) = true
  /\ Ora.is_select (q_query q) = true
  /\ cy_sent (query_set inv drv cfg oc q) = [q_query q]
  /\ exists rows r,
       drv_run drv (q_query q) = Done rows /\ In r rows /\ r <> [].
Proof.
  unfold query_set, Ora.close, Ora.connect, Ora.execute.
  repeat case_match; simplify_eq.
  all: rewrite ?(proj1 (finish_fields _ _ _)),
         ?(proj1 (proj2 (finish_fields _ _ _))),
         ?(proj2 (proj2 (finish_fields _ _ _))).
  all: match goal with
       | |- emitted (map_result _ _ ?rows _) <> [] -> _ =>
           destruct (rows_empty_or_not rows) as [He|(r & Hin & Hr)];
           [rewrite (map_result_empty_rows_emitted _ _ _ _ He);
            intros H; by destruct H|]
       | |- _ => intros H; by destruct H
       end.
  all: try (by destruct Hin).
  all: try (by destruct Hin as [<-|[]]).
  all: intros _; repeat split; try done;
    try (by apply negb_false_iff); by eauto.
Qed.

(** X10: a cycle whose connection attempt fails sends nothing, emits
    nothing and logs nothing in [query_set]; a cycle whose statement fails
    in the database has sent it once, stays connected and emits nothing,
    and it logs nothing either when every placeholder of the query's gauges
    is within the digits that [int] converts. *)
Theorem query_set_quiet_failures inv drv cfg oc q e :
  e <> KeyboardInterrupt ->
  conn oc = false \/ drv_close drv = Done tt ->
  (drv_connect drv = Raised e ->
   query_set inv drv cfg oc q = Cycle {| conn := false |} [] [] None false)
  /\ (drv_connect drv = Done tt ->
      Ora.is_select (q_query q) = true ->
      drv_run drv (q_query q) = Raised e ->
      cy_conn (query_set inv drv cfg oc q) = {| conn := true |}
      /\ cy_sent (query_set inv drv cfg oc q) = [q_query q]
      /\ cy_observations (query_set inv drv cfg oc q) = []
      /\ (forallb Shape.labels_resolve (q_gauges q) = true ->
          query_set inv drv cfg oc q
          = Cycle {| conn := true |} [q_query q] [] None false)).
Proof.
  intros He Hclose.
  assert (Hc : Ora.close drv oc = ({| conn := false |}, Done tt)).
  { unfold Ora.close. destruct oc as [[]]; simpl.
    - destruct Hclose as [Hc|Hc]; [discriminate Hc|]. by rewrite Hc.
    - done. }
  split.
  - intros Hconn. unfold query_set. rewrite Hc.
    unfold Ora.connect, Ora.execute. cbn [conn negb]. rewrite Hconn.
    destruct e; try done; cbn [conn negb];
      by rewrite map_result_no_rows.
  - intros Hconn Hsel Hrun.
    assert (Hq : query_set inv drv cfg oc q
                 = finish {| conn := true |} [q_query q]
                     (map_result inv cfg [[]] (q_gauges q))).
    { unfold query_set. rewrite Hc.
      unfold Ora.connect, Ora.execute. cbn [conn negb].
      rewrite Hconn. cbn [conn negb]. rewrite Hsel, Hrun. cbn [negb].
      by destruct e. }
    rewrite Hq.
    destruct (finish_fields {| conn := true |} [q_query q]
                (map_result inv cfg [[]] (q_gauges q))) as (-> & -> & ->).
    split; [done|]. split; [done|]. split.
    + apply map_result_empty_rows_emitted. by intros r [<-|[]].
    + intros Hall. by rewrite map_result_empty_rows by (done || by intros r [<-|[]]).
Qed.

(** X11: when closing the live connection fails, the handle is kept: the
    cycle does not reconnect, ends with the connection still live, and a
    statement that passes the filter is sent on the old handle. *)
Theorem query_set_keeps_handle inv drv cfg q e :
  e <> KeyboardInterrupt ->
  drv_close drv = Raised e ->
  cy_conn (query_set inv drv cfg {| conn := true |} q) = {| conn := true |}
  /\ (Ora.is_select (q_query q) = true ->
      cy_sent (query_set inv drv cfg {| conn := true |} q) = [q_query q]).
Proof.
  intros He Hclose.
  assert (Hc : Ora.close drv {| conn := true |}
               = ({| conn := true |}, Done tt)).
  { unfold Ora.close. simpl. rewrite Hclose. by destruct e. }
  unfold query_set. rewrite Hc. unfold Ora.connect, Ora.execute.
  cbn [conn negb]. split.
  - repeat case_match; simplify_eq;
      by rewrite (proj1 (finish_fields _ _ _)).
  - intros ->. cbn [negb].
    repeat case_match; simplify_eq;
      by rewrite (proj1 (proj2 (finish_fields _ _ _))).
Qed.

(** ** Columns counted from the end *)

Lemma py_index_from_end (r : row) (c : Z) :
  c < 0 -> - len r <= c -> py_index r c = Done (Shape.column r (len r + c)).
Proof.
  intros Hneg Hlow. unfold py_index, Shape.column.
  replace (c <? 0) with true by (symmetry; by apply Z.ltb_lt).
  replace (0 <=? len r + c) with true by (symmetry; apply Z.leb_le; lia).
  replace (len r + c <? len r) with true by (symmetry; apply Z.ltb_lt; lia).
  simpl. rewrite (nth_error_nth' r Null); [done|]. unfold len in *. lia.
Qed.

Lemma py_index_below (r : row) (c : Z) :
  c < - len r -> py_index r c = Raised IndexError.
Proof.
  intros Hlow. unfold py_index.
  replace (c <? 0) with true
    by (symmetry; apply Z.ltb_lt; unfold len in *; lia).
  replace (0 <=? len r + c) with false by (symmetry; apply Z.leb_gt; lia).
  reflexivity.
Qed.

(** X13: a gauge without placeholder labels whose [col] is zero or
    negative reads the first row from its end ([col: 0] is the last
    column); when the row is not that long, the lookup raises instead of
    being skipped. *)
Theorem static_column_from_end inv cl g n (r : row) rest k :
  has_special_labels (g_labels g) = false ->
  g_col g = Some k ->
  k <= 0 ->
  (1 - k <= len r ->
   gauge_body inv cl (r :: rest) n g
   = ([Observation (g_name g) (Shape.column r (len r + (k - 1)))
         (dict_or (Str <$> g_labels g) cl)], Done tt))
  /\ (r <> [] -> len r < 1 - k ->
      gauge_body inv cl (r :: rest) n g = ([], Raised IndexError)).
Proof.
  intros Hstatic Hk Hneg. unfold gauge_body, gauge_branches, col.
  rewrite Hstatic, Hk. simpl negb. cbv iota. unfold static_branch, set_from_row.
  split.
  - intros Hlen.
    replace (truthy r) with true
      by (destruct r; [unfold len in Hlen; simpl in Hlen; lia|done]).
    replace (len r >=? k - 1) with true
      by (symmetry; apply Z.geb_le; unfold len; lia).
    simpl andb. cbv iota. rewrite py_index_from_end by lia. reflexivity.
  - intros Hr Hlen.
    replace (truthy r) with true by (by destruct r).
    replace (len r >=? k - 1) with true
      by (symmetry; apply Z.geb_le; unfold len; lia).
    simpl andb. cbv iota. rewrite py_index_below by lia. reflexivity.
Qed.

(** X14: a placeholder whose digits [int] converts to zero, such as [$0],
    is resolved to the last column of any row that has a column. *)
Theorem placeholder_zero_reads_last inv (r : row) v ds :
  PyStr.re_match_placeholder v = Some ds ->
  PyStr.int ds = Some 0 ->
  r <> [] ->
  g_label_value inv r v = Done (Shape.column r (len r - 1)).
Proof.
  intros Hm Hz Hr. unfold g_label_value, g_label_index. rewrite Hm, Hz.
  replace (truthy r) with true by (by destruct r).
  replace (len r >=? 0 - 1) with true
    by (symmetry; apply Z.geb_le; unfold len; lia).
  simpl andb. cbv iota. rewrite py_index_from_end.
  - reflexivity.
  - lia.
  - destruct r; [done|]. unfold len. simpl length. lia.
Qed.

(** ** Label schemas: what is registered and what is sent *)

(** X15: the value of each connection label: the connection's
    [extra_labels] come first, then [db_host], [db_port] and [db_name]
    under [dbhost], [dbport] and [dbname], then the sentinel under [dbenv]
    and [dbinstance]; no other key is a connection label. *)
Theorem c_labels_lookup inv cfg k :
  c_labels inv cfg !! k
  = match conn_extra_labels cfg ≫= (fun extra => extra !! k) with
    | Some v => Some v
    | None =>
        if decide (k = "dbhost") then Some (db_host cfg)
        else if decide (k = "dbport") then Some (db_port cfg)
        else if decide (k = "dbname") then Some (db_name cfg)
        else if decide (k = "dbenv" \/ k = "dbinstance")
             then Some (Str inv)
             else None
    end.
Proof.
  unfold c_labels, dict_or.
  assert (Hbase : forall (m : gmap string value),
    (m ∪ gset_to_gmap (Str inv) max_conn_labels) !! k
    = match m !! k with
      | Some v => Some v
      | None => if decide (k ∈ max_conn_labels) then Some (Str inv) else None
      end).
  { intros m. destruct (m !! k) as [v|] eqn:Hm.
    - by apply lookup_union_Some_l.
    - rewrite lookup_union_r by done. case_decide.
      + by apply lookup_gset_to_gmap_Some.
      + by apply lookup_gset_to_gmap_None. }
  rewrite Hbase. clear Hbase.
  assert (Hthree :
    ({[ "dbhost" := db_host cfg; "dbport" := db_port cfg;
        "dbname" := db_name cfg ]} : gmap string value) !! k
    = if decide (k = "dbhost") then Some (db_host cfg)
      else if decide (k = "dbport") then Some (db_port cfg)
      else if decide (k = "dbname") then Some (db_name cfg)
      else None).
  { rewrite !lookup_insert, lookup_singleton.
    repeat case_decide; simplify_eq; done. }
  assert (Hmax : k ∈ max_conn_labels
                 <-> k = "dbhost" \/ k = "dbport" \/ k = "dbname"
                     \/ k = "dbenv" \/ k = "dbinstance").
  { unfold max_conn_labels. set_solver. }
  destruct (conn_extra_labels cfg) as [extra|]; simpl.
  - destruct (extra !! k) as [v|] eqn:Hextra.
    + by rewrite (lookup_union_Some_l _ _ _ _ Hextra).
    + rewrite lookup_union_r, Hthree by done.
      repeat case_decide; try done; exfalso; tauto.
  - rewrite Hthree. repeat case_decide; try done; exfalso; tauto.
Qed.

Lemma extra_keys_fold cs (acc : gset string) k :
  k ∈ fold_left
        (fun (acc : gset string) c =>
           acc ∪ match conn_extra_labels c with
                 | Some extra => dom extra
                 | None => ∅
                 end) cs acc
  <-> k ∈ acc \/ exists c, In c cs /\ k ∈ Shape.extra_keys c.
Proof.
  revert acc. induction cs as [|c cs IH]; intros acc; simpl.
  - split; [by left|]. by intros [H|(c & [] & _)].
  - rewrite IH, elem_of_union. fold (Shape.extra_keys c). split.
    + intros [[H|H]|(c' & Hc' & H)]; [by left| |].
      * right. exists c. by split; [left|].
      * right. exists c'. by split; [right|].
    + intros [H|(c' & [<-|Hc'] & H)]; [by left; left|by left; right|].
      right. by exists c'.
Qed.

(** X16: the label keys computed at start-up are [dbhost], [dbport],
    [dbname] and every key of the [extra_labels] of any connection, and
    nothing else. *)
Theorem get_labels_list_iff cs k :
  k ∈ get_labels_list cs
  <-> k = "dbhost" \/ k = "dbport" \/ k = "dbname"
      \/ exists c, In c cs /\ k ∈ Shape.extra_keys c.
Proof.
  unfold get_labels_list. rewrite !elem_of_union, !elem_of_singleton.
  rewrite extra_keys_fold. set_solver.
Qed.

(** X17: when every connection declares [dbenv] and [dbinstance] and no
    connection has an extra label key that this one lacks, every
    observation carries exactly the keys its gauge was registered with. *)
Theorem labels_match_registration inv cs cfg res gauges o :
  In cfg cs ->
  "dbenv" ∈ Shape.extra_keys cfg ->
  "dbinstance" ∈ Shape.extra_keys cfg ->
  (forall c, In c cs -> Shape.extra_keys c ⊆ Shape.extra_keys cfg) ->
  In o (emitted (map_result inv cfg res gauges)) ->
  exists g, In g gauges /\ ob_name o = g_name g
    /\ dom (ob_labels o) = registered_labels (get_labels_list cs) g.
Proof.
  intros Hcfg Henv Hinst Hsame Ho.
  apply observation_keys in Ho as (g & Hg & Hn & Hdom).
  exists g. split; [done|]. split; [done|].
  rewrite Hdom. fold (Shape.extra_keys cfg). unfold registered_labels.
  apply set_eq. intros k.
  rewrite !elem_of_union, get_labels_list_iff. unfold max_conn_labels.
  rewrite !elem_of_union, !elem_of_singleton. split.
  - intros [[H|H]|H].
    + by right.
    + left. destruct H as [[[[->| ->]| ->]| ->]| ->]; eauto 10.
    + left. eauto 10.
  - intros [[->|[->|[->|(c & Hc & H)]]]|H]; eauto 10.
    right. by apply (Hsame c).
Qed.

Lemma create_gauges_eq ml gauges :
  create_gauges ml gauges
  = if forallb (fun g => negb (PyStr.is_empty (g_name g))) gauges
    then Done (map (fun g => (g_name g, registered_labels ml g)) gauges)
    else Raised OtherException.
Proof.
  induction gauges as [|g gauges IH]; [done|]. simpl.
  destruct (PyStr.is_empty (g_name g)); simpl; [done|].
  rewrite IH. by destruct (forallb _ gauges).
Qed.

(** X18: start-up registers every gauge of every query, in order, under
    its name with the start-up keys and its own label keys; a single gauge
    with an empty name makes the whole registration fail. *)
Theorem start_prometheus_exporter_eq qs ml :
  start_prometheus_exporter qs ml
  = if forallb (fun g => negb (PyStr.is_empty (g_name g)))
         (concat (map q_gauges qs))
    then Done (map (fun g => (g_name g, registered_labels ml g))
                 (concat (map q_gauges qs)))
    else Raised OtherException.
Proof. apply create_gauges_eq. Qed.

(** ** Start-up of a connection and the connection keeper *)

(** X19: [oracle_instance_connection] leaves with status 1 as soon as one
    of name, host, port, user and password is missing, empty or zero;
    otherwise it hands back a connection that is not yet connected, on
    which [execute] answers with no rows and sends nothing. *)
Theorem oracle_instance_connection_checks cfg db_user db_passwd :
  oracle_instance_connection cfg db_user db_passwd
  = (if truthy_value (db_name cfg) && truthy_value (db_host cfg)
        && truthy_value (db_port cfg) && truthy_value db_user
        && truthy_value db_passwd
     then Started {| conn := false |}
     else Exit 1)
  /\ (forall oc drv query name,
        oracle_instance_connection cfg db_user db_passwd = Started oc ->
        Ora.execute drv oc query name = ([], Done [])).
Proof.
  split.
  - unfold oracle_instance_connection, connection_fields. simpl.
    by repeat (destruct (truthy_value _); simpl).
  - intros oc drv query name. unfold oracle_instance_connection.
    destruct (missing_field _); [discriminate|]. by intros [= <-].
Qed.

Lemma connect_live drv oc :
  conn oc = true -> Ora.connect drv oc = (oc, Done tt).
Proof. intros H. unfold Ora.connect. by rewrite H. Qed.

Lemma keeper_live answers oc :
  conn oc = true -> oracle_keep_connection answers oc = (oc, Done tt).
Proof.
  intros H. induction answers as [|drv answers IH]; [done|]. simpl.
  by rewrite connect_live.
Qed.

(** X20: as long as the driver does not raise [KeyboardInterrupt], the
    keeper never raises and never drops a live connection; it ends
    connected exactly when it started connected or one of the attempts
    was answered with a handle. *)
Theorem oracle_keep_connection_result answers oc :
  Forall (fun drv => drv_connect drv <> Raised KeyboardInterrupt) answers ->
  oracle_keep_connection answers oc
  = ({| conn := conn oc || existsb Shape.connects answers |}, Done tt).
Proof.
  intros Hki. destruct oc as [[]].
  { by rewrite keeper_live. }
  induction Hki as [|drv answers Hdrv Hki IH]; [done|].
  simpl. unfold Ora.connect, Shape.connects. simpl.
  destruct (drv_connect drv) as [[]|e] eqn:Hc.
  - simpl. by rewrite keeper_live.
  - destruct e; try done; by rewrite IH.
Qed.

(** ** The further properties on sample inputs *)

Lemma dynamic_fan_out_witness :
  gauge_branches "-" Sample.labels_h1 Sample.rows_ab Sample.g_env 1
  = (Shape.fan_out Sample.labels_h1 Sample.g_env 1 Sample.rows_ab, Done tt).
Proof.
  apply (dynamic_fan_out "-" Sample.labels_h1 Sample.g_env 1 Sample.rows_ab);
    vm_compute; reflexivity.
Defined.

Lemma dynamic_branch_stops_witness :
  dynamic_branch "-" Sample.labels_h1
    ([[Str "B"; Int 20]] ++ [Str "A"] :: [[Str "C"; Int 30]]) Sample.g_env 1
  = (emitted (dynamic_branch "-" Sample.labels_h1 [[Str "B"; Int 20]]
                Sample.g_env 1),
     Raised IndexError).
Proof.
  apply (dynamic_branch_stops "-" Sample.labels_h1 Sample.g_env 1
           [[Str "B"; Int 20]] [[Str "C"; Int 30]] [Str "A"] IndexError);
    vm_compute; reflexivity.
Defined.

Lemma map_result_names_witness :
  In (ob_name Sample.obs_sessions) (map g_name [Sample.g_plain]).
Proof.
  apply (map_result_names "-" Sample.cfg_h1 [[Int 7]] [Sample.g_plain]
           Sample.obs_sessions).
  vm_compute. left. reflexivity.
Defined.

Lemma query_set_observations_need_rows_witness :
  conn (cy_conn (query_set "-" (Sample.serving_driver Sample.rows_ab)
                   Sample.cfg_h1 {| conn := false |} Sample.q_tablespaces))
  = true
  /\ Ora.is_select (q_query Sample.q_tablespaces) = true
  /\ cy_sent (query_set "-" (Sample.serving_driver Sample.rows_ab)
                Sample.cfg_h1 {| conn := false |} Sample.q_tablespaces)
     = [q_query Sample.q_tablespaces]
  /\ exists rows r,
       drv_run (Sample.serving_driver Sample.rows_ab)
         (q_query Sample.q_tablespaces) = Done rows
       /\ In r rows /\ r <> [].
Proof.
  apply (query_set_observations_need_rows "-"
           (Sample.serving_driver Sample.rows_ab) Sample.cfg_h1
           {| conn := false |} Sample.q_tablespaces).
  vm_compute. discriminate.
Defined.

Lemma query_set_quiet_failures_witness :
  query_set "-" Fixture.unreachable_driver Sample.cfg_h1 {| conn := true |}
    Sample.q_sessions
  = Cycle {| conn := false |} [] [] None false
  /\ query_set "-" Sample.failing_driver Sample.cfg_h1 {| conn := false |}
       Sample.q_sessions
     = Cycle {| conn := true |} [q_query Sample.q_sessions] [] None false.
Proof.
  split.
  - apply (proj1 (query_set_quiet_failures "-" Fixture.unreachable_driver
                    Sample.cfg_h1 {| conn := true |} Sample.q_sessions
                    (DatabaseError "ORA-12541")
                    ltac:(discriminate) ltac:(right; reflexivity)));
      reflexivity.
  - apply (proj2 (query_set_quiet_failures "-" Sample.failing_driver
                    Sample.cfg_h1 {| conn := false |} Sample.q_sessions
                    (DatabaseError "ORA-00942")
                    ltac:(discriminate) ltac:(left; reflexivity)));
      reflexivity.
Defined.

Lemma query_set_keeps_handle_witness :
  cy_conn (query_set "-" Fixture.stuck_driver Sample.cfg_h1
             {| conn := true |} Sample.q_tablespaces)
  = {| conn := true |}
  /\ cy_sent (query_set "-" Fixture.stuck_driver Sample.cfg_h1
                {| conn := true |} Sample.q_tablespaces)
     = [q_query Sample.q_tablespaces].
Proof.
  pose proof (query_set_keeps_handle "-" Fixture.stuck_driver Sample.cfg_h1
                Sample.q_tablespaces (DatabaseError "ORA-03113")
                ltac:(discriminate) ltac:(reflexivity)) as [Hconn Hsent].
  split; [exact Hconn|]. apply Hsent. reflexivity.
Defined.

Lemma static_column_from_end_witness :
  gauge_body "-" Sample.labels_h1 [Fixture.row_a10] 0 Fixture.g_last
  = ([Observation "last" (Int 10) Sample.labels_h1], Done tt)
  /\ gauge_body "-" Sample.labels_h1 [Fixture.row_a10] 0 Fixture.g_far
     = ([], Raised IndexError).
Proof.
  split.
  - refine (eq_trans
              (proj1 (static_column_from_end "-" Sample.labels_h1
                        Fixture.g_last 0 Fixture.row_a10 [] 0
                        ltac:(reflexivity) ltac:(reflexivity) ltac:(lia))
                 ltac:(vm_compute; discriminate)) _).
    vm_compute. reflexivity.
  - apply (proj2 (static_column_from_end "-" Sample.labels_h1
                    Fixture.g_far 0 Fixture.row_a10 [] (-3)
                    ltac:(reflexivity) ltac:(reflexivity) ltac:(lia)));
      [discriminate | vm_compute; reflexivity].
Defined.

Lemma placeholder_zero_reads_last_witness :
  g_label_value "-" Fixture.row_a10 "$0" = Done (Int 10).
Proof.
  refine (eq_trans
            (placeholder_zero_reads_last "-" Fixture.row_a10 "$0" "0"
               ltac:(reflexivity) ltac:(reflexivity) ltac:(discriminate)) _).
  reflexivity.
Defined.

Lemma labels_match_registration_witness :
  exists g, In g [Sample.g_plain] /\ ob_name Fixture.obs_full = g_name g
    /\ dom (ob_labels Fixture.obs_full)
       = registered_labels (get_labels_list [Fixture.cfg_full]) g.
Proof.
  apply (labels_match_registration "-" [Fixture.cfg_full] Fixture.cfg_full
           [[Int 7]] [Sample.g_plain] Fixture.obs_full).
  - left. reflexivity.
  - unfold Shape.extra_keys. simpl. set_solver.
  - unfold Shape.extra_keys. simpl. set_solver.
  - intros c [<-|[]]. reflexivity.
  - vm_compute. left. reflexivity.
Defined.

Lemma oracle_instance_connection_checks_witness :
  Ora.execute Sample.failing_driver {| conn := false |} "select 1 from dual"
    "q"
  = ([], Done []).
Proof.
  apply (proj2 (oracle_instance_connection_checks Sample.cfg_h1
                  (Str "scott") (Str "tiger"))).
  reflexivity.
Defined.

Lemma oracle_keep_connection_result_witness :
  oracle_keep_connection
    [Fixture.unreachable_driver; Sample.failing_driver;
     Fixture.unreachable_driver] {| conn := false |}
  = ({| conn := true |}, Done tt).
Proof.
  refine (eq_trans
            (oracle_keep_connection_result
               [Fixture.unreachable_driver; Sample.failing_driver;
                Fixture.unreachable_driver] {| conn := false |} _) _).
  - repeat constructor; discriminate.
  - reflexivity.
Defined.
